(** * enable_ssl.c: automatic TLS bootstrap of a Citus node

    A shallow embedding of [src/backend/distributed/utils/enable_ssl.c] and
    the properties its specification states about it.

    The file is C code that drives three external libraries: OpenSSL (key and
    certificate construction), the C standard I/O library (the two PEM files)
    and the PostgreSQL backend (configuration store, reload, memory contexts,
    error reporting).  The embedding keeps the functions of the file as they
    are written, statement by statement, in a state-and-error monad over an
    explicit [world]; the libraries are modelled by what their interfaces
    document:

    - every OpenSSL and stdio call of the file that reports failure through
      its result may fail; which calls do is fixed per run by an
      [environment].  What the program does with the reported status is the
      program's business: where the source tests it the model tests it,
      where the source discards it the model discards it;
    - the PostgreSQL and Citus collaborators (configuration store, reload,
      connection-parameter reader) are taken as the specification describes
      them;
    - a NULL pointer handed to an OpenSSL function that dereferences it ends
      the run in [Crashed];
    - [ereport(ERROR, ...)] does not return: the run ends in [Error msg] with
      the world as it is at that point (files already written stay written);
    - keys and signatures are symbolic: a key pair is named by the secret
      drawn by OpenSSL, and a signature records signer, digest and the signed
      fields;
    - a file is the sequence of PEM blocks in it; a path may be unwritable,
      and what is written to a stream reaches the file when the stream is
      closed;
    - the clock is part of the world and is read by the calls that need the
      time; it does not advance during a run.

    The definitions come first, the lemmas and the claims of the
    specification after them; further properties of the code follow: what a
    run leaves alone, which errors it can end in, what is registered for
    release and what is stored, for every behaviour of the libraries. *)

From Stdlib Require Import ZArith String Ascii List Lia.
From stdpp Require Import base decidable option gmap strings list.

Local Open Scope string_scope.
Local Open Scope Z_scope.

(** * The program and its libraries *)

(** ** C strings *)

(** The terminating byte of a C string. *)
Definition NUL : ascii := Ascii.zero.

Definition byte (c : ascii) : Z := Z.of_N (N_of_ascii c).

(** The characters a [char *] denotes: those before the first NUL. *)
Fixpoint c_str (s : string) : string :=
  match s with
  | EmptyString => EmptyString
  | String c r => if Ascii.eqb c NUL then EmptyString else String c (c_str r)
  end.

(** [strcmp] of the C library: the difference of the first two bytes that
    differ (as unsigned char), the terminator included; zero when the
    strings end together. *)
Fixpoint strcmp (s1 s2 : string) : Z :=
  match s1, s2 with
  | EmptyString, EmptyString => 0
  | EmptyString, String c2 _ => 0 - byte c2
  | String c1 _, EmptyString => byte c1 - 0
  | String c1 r1, String c2 r2 =>
      if Z.eqb (byte c1) (byte c2)
      then (if Ascii.eqb c1 NUL then 0 else strcmp r1 r2)
      else byte c1 - byte c2
  end.

(** ** OpenSSL objects *)

(** RSA key material.  [rsa_secret] stands for the primes OpenSSL draws: it
    names the key pair. *)
Record RSA_key := {
  rsa_bits : Z;
  rsa_e : Z;
  rsa_secret : N
}.

(** What a certificate can carry of a key: its public part. *)
Record PublicKey := {
  pk_bits : Z;
  pk_e : Z;
  pk_of : N
}.

Definition RSA_public (k : RSA_key) : PublicKey :=
  {| pk_bits := rsa_bits k; pk_e := rsa_e k; pk_of := rsa_secret k |}.

Inductive EVP_MD := EVP_md5 | EVP_sha1 | EVP_sha256.

(** An X509_NAME: its entries, as (field, value), in order. *)
Definition X509_NAME := list (string * string).

(** The signed part of a certificate (OpenSSL's X509_CINF). *)
Record X509_CINF := {
  serialNumber : Z;
  notBefore : option Z;
  notAfter : option Z;
  issuer : X509_NAME;
  subject : X509_NAME;
  key : option PublicKey
}.

Record X509_SIG := {
  sig_md : EVP_MD;
  sig_signer : N;
  sig_over : X509_CINF
}.

Record X509 := {
  cert_info : X509_CINF;
  signature : option X509_SIG
}.

#[global] Instance RSA_key_eq_dec : EqDecision RSA_key.
Proof. solve_decision. Defined.
#[global] Instance PublicKey_eq_dec : EqDecision PublicKey.
Proof. solve_decision. Defined.
#[global] Instance EVP_MD_eq_dec : EqDecision EVP_MD.
Proof. solve_decision. Defined.
#[global] Instance X509_CINF_eq_dec : EqDecision X509_CINF.
Proof. solve_decision. Defined.
#[global] Instance X509_SIG_eq_dec : EqDecision X509_SIG.
Proof. solve_decision. Defined.
#[global] Instance X509_eq_dec : EqDecision X509.
Proof. solve_decision. Defined.

(** [X509_verify]: the signature is one made with the private half of [pk]
    over the certificate's current fields. *)
Definition X509_verify (c : X509) (pk : PublicKey) : bool :=
  match signature c with
  | Some s => bool_decide (sig_signer s = pk_of pk /\ sig_over s = cert_info c)
  | None => false
  end.

(** The value of a freshly allocated certificate. *)
Definition X509_blank : X509 :=
  {| cert_info := {| serialNumber := 0; notBefore := None; notAfter := None;
                     issuer := []; subject := []; key := None |};
     signature := None |}.

(** Addresses; a pointer is an address or NULL. *)
Abbreviation handle := nat (only parsing).
Abbreviation ptr := (option nat) (only parsing).
Abbreviation NULL := (@None nat) (only parsing).

Inductive object :=
  | SSL_CTX_obj (loaded : option X509)
  | EVP_PKEY_obj (rsa : ptr)
  | BIGNUM_obj (value : Z)
  | RSA_obj (generated : option RSA_key)
  | X509_obj (c : X509).

(** Pointers into a certificate, as [X509_get_serialNumber] and its like
    return them: they alias the certificate's own fields. *)
Inductive ASN1_INTEGER_ref := serialNumber_of (x : handle).
Inductive ASN1_TIME_ref := notBefore_of (x : handle) | notAfter_of (x : handle).
Inductive X509_NAME_ref := subject_name_of (x : handle) | issuer_name_of (x : handle).

(** The release functions this file registers. *)
Inductive MemoryContextCallbackFunction :=
  | SSL_CTX_free | EVP_PKEY_free | BN_free | X509_free.

(** ** Files *)

(** A file, as OpenSSL's PEM reader and writer see it: a sequence of blocks. *)
Inductive pem_block :=
  | PemPrivateKey (k : RSA_key)
  | PemX509 (c : X509)
  | PemOther (text : string).

Abbreviation file := (list pem_block) (only parsing).

(** ** The PostgreSQL side *)

Inductive elevel := LOG | WARNING | ERROR.

Record AlterSystemStmt := { setting_name : string; setting_value : string }.

Inductive GucContext := PGC_POSTMASTER | PGC_SIGHUP.

Definition Oid := Z.
Definition InvalidOid : Oid := 0.

Record FunctionCallInfoData := {
  nargs : Z;
  fncollation : Oid;
  isnull : bool
}.

Inductive Datum := DatumZero | BoolGetDatum (b : bool).

(** Compile-time configuration of the build. *)
Record build := {
  USE_SSL : bool;
  PG_VERSION_NUM : Z
}.

(** ** The world *)

Record world := World {
  (* settings of the running server *)
  EnableSSL : bool;
  ssl_cert_file : string;
  ssl_key_file : string;
  node_conninfo_sslmode : string;
  (* configuration store: what ALTER SYSTEM has persisted *)
  auto_conf : gmap string string;
  reload_requests : nat;
  config_file_reads : nat;
  server_log : list (elevel * string);
  (* file system *)
  files : gmap string file;
  unwritable : gset string;
  streams : gmap handle (string * file);
  (* OpenSSL heap and the reset callbacks of the current memory context *)
  heap : gmap handle object;
  next_handle : handle;
  callbacks : list (MemoryContextCallbackFunction * ptr);
  released : list handle;
  (* wall clock, in seconds *)
  now : Z
}.

Definition upd_auto_conf (f : gmap string string -> gmap string string) (w : world) : world :=
  World (EnableSSL w) (ssl_cert_file w) (ssl_key_file w) (node_conninfo_sslmode w)
        (f (auto_conf w)) (reload_requests w) (config_file_reads w) (server_log w)
        (files w) (unwritable w) (streams w)
        (heap w) (next_handle w) (callbacks w) (released w) (now w).

Definition upd_reload_requests (f : nat -> nat) (w : world) : world :=
  World (EnableSSL w) (ssl_cert_file w) (ssl_key_file w) (node_conninfo_sslmode w)
        (auto_conf w) (f (reload_requests w)) (config_file_reads w) (server_log w)
        (files w) (unwritable w) (streams w)
        (heap w) (next_handle w) (callbacks w) (released w) (now w).

Definition upd_config_file_reads (f : nat -> nat) (w : world) : world :=
  World (EnableSSL w) (ssl_cert_file w) (ssl_key_file w) (node_conninfo_sslmode w)
        (auto_conf w) (reload_requests w) (f (config_file_reads w)) (server_log w)
        (files w) (unwritable w) (streams w)
        (heap w) (next_handle w) (callbacks w) (released w) (now w).

Definition upd_server_log (f : list (elevel * string) -> list (elevel * string)) (w : world) : world :=
  World (EnableSSL w) (ssl_cert_file w) (ssl_key_file w) (node_conninfo_sslmode w)
        (auto_conf w) (reload_requests w) (config_file_reads w) (f (server_log w))
        (files w) (unwritable w) (streams w)
        (heap w) (next_handle w) (callbacks w) (released w) (now w).

Definition upd_files (f : gmap string file -> gmap string file) (w : world) : world :=
  World (EnableSSL w) (ssl_cert_file w) (ssl_key_file w) (node_conninfo_sslmode w)
        (auto_conf w) (reload_requests w) (config_file_reads w) (server_log w)
        (f (files w)) (unwritable w) (streams w)
        (heap w) (next_handle w) (callbacks w) (released w) (now w).

Definition upd_streams (f : gmap handle (string * file) -> gmap handle (string * file)) (w : world) : world :=
  World (EnableSSL w) (ssl_cert_file w) (ssl_key_file w) (node_conninfo_sslmode w)
        (auto_conf w) (reload_requests w) (config_file_reads w) (server_log w)
        (files w) (unwritable w) (f (streams w))
        (heap w) (next_handle w) (callbacks w) (released w) (now w).

Definition upd_heap (f : gmap handle object -> gmap handle object) (w : world) : world :=
  World (EnableSSL w) (ssl_cert_file w) (ssl_key_file w) (node_conninfo_sslmode w)
        (auto_conf w) (reload_requests w) (config_file_reads w) (server_log w)
        (files w) (unwritable w) (streams w)
        (f (heap w)) (next_handle w) (callbacks w) (released w) (now w).

Definition upd_next_handle (f : handle -> handle) (w : world) : world :=
  World (EnableSSL w) (ssl_cert_file w) (ssl_key_file w) (node_conninfo_sslmode w)
        (auto_conf w) (reload_requests w) (config_file_reads w) (server_log w)
        (files w) (unwritable w) (streams w)
        (heap w) (f (next_handle w)) (callbacks w) (released w) (now w).

Definition upd_callbacks
    (f : list (MemoryContextCallbackFunction * ptr) -> list (MemoryContextCallbackFunction * ptr))
    (w : world) : world :=
  World (EnableSSL w) (ssl_cert_file w) (ssl_key_file w) (node_conninfo_sslmode w)
        (auto_conf w) (reload_requests w) (config_file_reads w) (server_log w)
        (files w) (unwritable w) (streams w)
        (heap w) (next_handle w) (f (callbacks w)) (released w) (now w).

Definition upd_released (f : list handle -> list handle) (w : world) : world :=
  World (EnableSSL w) (ssl_cert_file w) (ssl_key_file w) (node_conninfo_sslmode w)
        (auto_conf w) (reload_requests w) (config_file_reads w) (server_log w)
        (files w) (unwritable w) (streams w)
        (heap w) (next_handle w) (callbacks w) (f (released w)) (now w).

Arguments upd_auto_conf _ !_ /.
Arguments upd_reload_requests _ !_ /.
Arguments upd_config_file_reads _ !_ /.
Arguments upd_server_log _ !_ /.
Arguments upd_files _ !_ /.
Arguments upd_streams _ !_ /.
Arguments upd_heap _ !_ /.
Arguments upd_next_handle _ !_ /.
Arguments upd_callbacks _ !_ /.
Arguments upd_released _ !_ /.

(** ** Runs *)

(** How a run ends: it returns, it is cut short by [ereport(ERROR, ...)], or
    the process dies on a NULL dereference. *)
Inductive outcome (A : Type) :=
  | Done (a : A)
  | Error (msg : string)
  | Crashed.
Arguments Done {A} a.
Arguments Error {A} msg.
Arguments Crashed {A}.

Definition M (A : Type) : Type := world -> outcome A * world.

Definition ret {A} (a : A) : M A := fun w => (Done a, w).

Definition bind {A B} (m : M A) (k : A -> M B) : M B :=
  fun w =>
    match m w with
    | (Done a, w') => k a w'
    | (Error msg, w') => (Error msg, w')
    | (Crashed, w') => (Crashed, w')
    end.

Definition crash {A} : M A := fun w => (Crashed, w).

Definition gets {A} (f : world -> A) : M A := fun w => (Done (f w), w).

Definition modify (f : world -> world) : M unit := fun w => (Done tt, f w).

Declare Scope run_scope.
Delimit Scope run_scope with run.
Notation "x <- m ;; k" := (bind m (fun x => k))
  (at level 100, m at next level, right associativity) : run_scope.
Notation "m ;; k" := (bind m (fun _ => k))
  (at level 100, right associativity) : run_scope.
Local Open Scope run_scope.

(** ** The environment of a run *)

(** The library calls of the file that report failure through their result,
    one name per call site. *)
Inductive site :=
  | at_SSL_CTX_new
  | at_EVP_PKEY_new
  | at_BN_new
  | at_BN_set_word
  | at_RSA_new
  | at_RSA_generate_key_ex
  | at_EVP_PKEY_assign_RSA
  | at_X509_new
  | at_ASN1_INTEGER_set
  | at_X509_gmtime_adj_notBefore
  | at_X509_gmtime_adj_notAfter
  | at_X509_set_pubkey
  | at_X509_NAME_add_entry_by_txt
  | at_X509_set_issuer_name
  | at_X509_sign
  | at_PEM_write_PrivateKey
  | at_fclose_privateKeyFile
  | at_PEM_write_X509
  | at_fclose_certificateFile.

#[global] Instance site_eq_dec : EqDecision site.
Proof. solve_decision. Defined.

(** What the libraries do during one run: which calls fail, and the secret
    the key generator draws. *)
Record environment := {
  fails : site -> bool;
  entropy : N
}.

Definition all_succeed (env : environment) : Prop :=
  forall s, fails env s = false.

(** The environment in which exactly the calls of [l] fail. *)
Definition failing (l : list site) (seed : N) : environment :=
  {| fails := fun s => bool_decide (s ∈ l); entropy := seed |}.

(** ** Heap and stream primitives *)

Definition alloc (o : object) : M handle :=
  fun w =>
    let h := next_handle w in
    (Done h, upd_next_handle S (upd_heap <[h := o]> w)).

Definition load (h : handle) : M object :=
  fun w =>
    match heap w !! h with
    | Some o => (Done o, w)
    | None => (Crashed, w)
    end.

Definition store (h : handle) (o : object) : M unit :=
  modify (upd_heap <[h := o]>).

Definition load_X509 (x : handle) : M X509 :=
  o <- load x ;;
  match o with
  | X509_obj c => ret c
  | _ => crash
  end.

(** The key held by an EVP_PKEY, if one has been assigned and generated. *)
Definition key_of (pkey : handle) : M (option RSA_key) :=
  o <- load pkey ;;
  match o with
  | EVP_PKEY_obj (Some r) =>
      o' <- load r ;;
      match o' with
      | RSA_obj k => ret k
      | _ => crash
      end
  | EVP_PKEY_obj None => ret None
  | _ => crash
  end.

Definition set_cert_info (f : X509_CINF -> X509_CINF) (c : X509) : X509 :=
  {| cert_info := f (cert_info c); signature := signature c |}.

Definition set_serialNumber (v : Z) (i : X509_CINF) : X509_CINF :=
  {| serialNumber := v; notBefore := notBefore i; notAfter := notAfter i;
     issuer := issuer i; subject := subject i; key := key i |}.

Definition set_notBefore (t : Z) (i : X509_CINF) : X509_CINF :=
  {| serialNumber := serialNumber i; notBefore := Some t; notAfter := notAfter i;
     issuer := issuer i; subject := subject i; key := key i |}.

Definition set_notAfter (t : Z) (i : X509_CINF) : X509_CINF :=
  {| serialNumber := serialNumber i; notBefore := notBefore i; notAfter := Some t;
     issuer := issuer i; subject := subject i; key := key i |}.

Definition set_issuer (n : X509_NAME) (i : X509_CINF) : X509_CINF :=
  {| serialNumber := serialNumber i; notBefore := notBefore i; notAfter := notAfter i;
     issuer := n; subject := subject i; key := key i |}.

Definition set_subject (n : X509_NAME) (i : X509_CINF) : X509_CINF :=
  {| serialNumber := serialNumber i; notBefore := notBefore i; notAfter := notAfter i;
     issuer := issuer i; subject := n; key := key i |}.

Definition set_key (pk : PublicKey) (i : X509_CINF) : X509_CINF :=
  {| serialNumber := serialNumber i; notBefore := notBefore i; notAfter := notAfter i;
     issuer := issuer i; subject := subject i; key := Some pk |}.

Definition set_signature (s : X509_SIG) (c : X509) : X509 :=
  {| cert_info := cert_info c; signature := Some s |}.

Section Libraries.

Variable env : environment.

(** ** OpenSSL *)

Definition new_object (s : site) (o : object) : M ptr :=
  if fails env s then ret NULL
  else (h <- alloc o ;; ret (Some h)).

(** [OPENSSL_init_ssl(OPENSSL_INIT_LOAD_CONFIG, NULL)], or [SSL_library_init()]
    where HAVE_OPENSSL_INIT_SSL is not defined: the library's own tables are
    set up; nothing the world records. *)
Definition OPENSSL_init_ssl : M unit := ret tt.

Definition SSL_CTX_new : M ptr := new_object at_SSL_CTX_new (SSL_CTX_obj None).
Definition EVP_PKEY_new : M ptr := new_object at_EVP_PKEY_new (EVP_PKEY_obj NULL).
Definition BN_new : M ptr := new_object at_BN_new (BIGNUM_obj 0).
Definition RSA_new : M ptr := new_object at_RSA_new (RSA_obj None).
Definition X509_new : M ptr := new_object at_X509_new (X509_obj X509_blank).

(** The first certificate of a file, as the PEM reader finds it: blocks of
    another kind are skipped. *)
Fixpoint first_certificate (f : file) : option X509 :=
  match f with
  | [] => None
  | PemX509 c :: _ => Some c
  | _ :: rest => first_certificate rest
  end.

(** The certificate [SSL_CTX_use_certificate_chain_file] would accept from a
    path: the first one of the file; one without a public key is refused. *)
Definition loadable_certificate (fs : gmap string file) (path : string) : option X509 :=
  match fs !! path with
  | Some f =>
      match first_certificate f with
      | Some c =>
          match key (cert_info c) with
          | Some _ => Some c
          | None => None
          end
      | None => None
      end
  | None => None
  end.

(** Returns 1 on success. *)
Definition SSL_CTX_use_certificate_chain_file (ctx : ptr) (path : string) : M Z :=
  match ctx with
  | None => crash
  | Some h =>
      o <- load h ;;
      match o with
      | SSL_CTX_obj _ =>
          fs <- gets files ;;
          match loadable_certificate fs path with
          | Some c => store h (SSL_CTX_obj (Some c)) ;; ret 1
          | None => ret 0
          end
      | _ => crash
      end
  end.

(** RSA_F4 of openssl/rsa.h. *)
Definition RSA_F4 : Z := 0x10001.

(** Returns 1 on success, 0 on error. *)
Definition BN_set_word (a : ptr) (w : Z) : M Z :=
  match a with
  | None => crash
  | Some h =>
      o <- load h ;;
      match o with
      | BIGNUM_obj _ =>
          if fails env at_BN_set_word then ret 0
          else (store h (BIGNUM_obj w) ;; ret 1)
      | _ => crash
      end
  end.

(** Generates a key pair of modulus size [bits] and public exponent [e]
    into [rsa]; returns 1 on success. *)
Definition RSA_generate_key_ex (rsa : ptr) (bits : Z) (e : ptr) (cb : ptr) : M Z :=
  match rsa, e with
  | Some r, Some eh =>
      o <- load r ;;
      oe <- load eh ;;
      match o, oe with
      | RSA_obj _, BIGNUM_obj ev =>
          if fails env at_RSA_generate_key_ex then ret 0
          else
            (store r (RSA_obj (Some {| rsa_bits := bits; rsa_e := ev;
                                       rsa_secret := entropy env |})) ;;
             ret 1)
      | _, _ => crash
      end
  | _, _ => crash
  end.

(** [EVP_PKEY_assign(pkey, EVP_PKEY_RSA, rsa)]: the wrapper takes ownership
    of [rsa]; returns 1 on success, 0 on failure or when either is NULL. *)
Definition EVP_PKEY_assign_RSA (pkey : ptr) (rsa : ptr) : M Z :=
  match pkey with
  | None => ret 0
  | Some p =>
      o <- load p ;;
      match o with
      | EVP_PKEY_obj _ =>
          if fails env at_EVP_PKEY_assign_RSA then ret 0
          else
            (store p (EVP_PKEY_obj rsa) ;;
             ret (match rsa with Some _ => 1 | None => 0 end))
      | _ => crash
      end
  end.

Definition X509_get_serialNumber (x : handle) : ASN1_INTEGER_ref := serialNumber_of x.
Definition X509_get_notBefore (x : handle) : ASN1_TIME_ref := notBefore_of x.
Definition X509_get_notAfter (x : handle) : ASN1_TIME_ref := notAfter_of x.
Definition X509_get_subject_name (x : handle) : X509_NAME_ref := subject_name_of x.

Definition update_X509 (x : handle) (f : X509 -> X509) : M unit :=
  c <- load_X509 x ;;
  store x (X509_obj (f c)).

(** Returns 1 on success, 0 on failure. *)
Definition ASN1_INTEGER_set (a : ASN1_INTEGER_ref) (v : Z) : M Z :=
  match a with
  | serialNumber_of x =>
      load_X509 x ;;
      if fails env at_ASN1_INTEGER_set then ret 0
      else (update_X509 x (set_cert_info (set_serialNumber v)) ;; ret 1)
  end.

(** Sets the time to the current time plus [adj] seconds; returns the time
    pointer, or NULL on failure. *)
Definition X509_gmtime_adj (s : ASN1_TIME_ref) (adj : Z) : M (option ASN1_TIME_ref) :=
  t <- gets now ;;
  match s with
  | notBefore_of x =>
      load_X509 x ;;
      if fails env at_X509_gmtime_adj_notBefore then ret None
      else (update_X509 x (set_cert_info (set_notBefore (t + adj))) ;; ret (Some s))
  | notAfter_of x =>
      load_X509 x ;;
      if fails env at_X509_gmtime_adj_notAfter then ret None
      else (update_X509 x (set_cert_info (set_notAfter (t + adj))) ;; ret (Some s))
  end.

(** Returns 1 on success, 0 on failure (also when [pkey] holds no key). *)
Definition X509_set_pubkey (x : handle) (pkey : ptr) : M Z :=
  match pkey with
  | None => crash
  | Some p =>
      load_X509 x ;;
      k <- key_of p ;;
      match k with
      | Some k =>
          if fails env at_X509_set_pubkey then ret 0
          else (update_X509 x (set_cert_info (set_key (RSA_public k))) ;; ret 1)
      | None => ret 0
      end
  end.

Definition MBSTRING_ASC : Z := 0x1001.

Definition read_name (n : X509_NAME_ref) : M X509_NAME :=
  match n with
  | subject_name_of x => c <- load_X509 x ;; ret (subject (cert_info c))
  | issuer_name_of x => c <- load_X509 x ;; ret (issuer (cert_info c))
  end.

Definition write_name (n : X509_NAME_ref) (v : X509_NAME) : M unit :=
  match n with
  | subject_name_of x => update_X509 x (set_cert_info (set_subject v))
  | issuer_name_of x => update_X509 x (set_cert_info (set_issuer v))
  end.

(** Appends an entry to the name ([len = -1]: the value is a C string;
    [loc = -1]: at the end).  Returns 1 on success, 0 on failure. *)
Definition X509_NAME_add_entry_by_txt (name : X509_NAME_ref) (field : string)
    (type : Z) (bytes : string) (len loc set : Z) : M Z :=
  entries <- read_name name ;;
  if fails env at_X509_NAME_add_entry_by_txt then ret 0
  else (write_name name (entries ++ [(c_str field, c_str bytes)])%list ;; ret 1).

(** Copies [name] into the issuer of [x]; returns 1 on success. *)
Definition X509_set_issuer_name (x : handle) (name : X509_NAME_ref) : M Z :=
  entries <- read_name name ;;
  load_X509 x ;;
  if fails env at_X509_set_issuer_name then ret 0
  else (update_X509 x (set_cert_info (set_issuer entries)) ;; ret 1).

(** Signs the fields of [x] with the key of [pkey] and digest [md]; returns
    the size of the signature, 0 on failure. *)
Definition X509_sign (x : handle) (pkey : ptr) (md : EVP_MD) : M Z :=
  match pkey with
  | None => crash
  | Some p =>
      c <- load_X509 x ;;
      k <- key_of p ;;
      match k with
      | Some k =>
          if fails env at_X509_sign then ret 0
          else
            (store x (X509_obj (set_signature
                       {| sig_md := md; sig_signer := rsa_secret k;
                          sig_over := cert_info c |} c)) ;;
             ret (rsa_bits k / 8))
      | None => ret 0
      end
  end.

(** ** Standard I/O *)

(** Mode "wb": the file is created or truncated.  NULL when the path cannot
    be opened for writing. *)
Definition fopen (filename mode : string) : M ptr :=
  ro <- gets unwritable ;;
  if bool_decide (filename ∈ ro) || negb (String.eqb mode "wb") then ret NULL
  else
    (h <- gets next_handle ;;
     modify (upd_next_handle S) ;;
     modify (upd_files <[filename := []]>) ;;
     modify (upd_streams <[h := (filename, [])]>) ;;
     ret (Some h)).

Definition fwrite_block (fp : handle) (b : pem_block) : M unit :=
  ss <- gets streams ;;
  match ss !! fp with
  | Some (path, buffered) => modify (upd_streams <[fp := (path, (buffered ++ [b])%list)]>)
  | None => crash
  end.

(** Flushes what is buffered and closes the stream; on failure the buffered
    data does not reach the file.  Returns 0, or EOF (-1) on failure. *)
Definition fclose (s : site) (fp : handle) : M Z :=
  ss <- gets streams ;;
  match ss !! fp with
  | Some (path, buffered) =>
      modify (upd_streams (delete fp)) ;;
      if fails env s then ret (-1)
      else
        (fs <- gets files ;;
         modify (upd_files <[path := (default [] (fs !! path) ++ buffered)%list]>) ;;
         ret 0)
  | None => crash
  end.

(** Writes the key of [pkey] to the stream, in the clear when no cipher
    [enc] is given; 1 on success. *)
Definition PEM_write_PrivateKey (fp : handle) (pkey : ptr)
    (enc kstr : ptr) (klen : Z) (cb u : ptr) : M Z :=
  match pkey with
  | None => crash
  | Some p =>
      k <- key_of p ;;
      match k with
      | Some k =>
          if fails env at_PEM_write_PrivateKey then ret 0
          else
            (fwrite_block fp (match enc with
                              | None => PemPrivateKey k
                              | Some _ => PemOther "ENCRYPTED PRIVATE KEY"
                              end) ;;
             ret 1)
      | None => ret 0
      end
  end.

(** Writes the certificate to the stream; 1 on success. *)
Definition PEM_write_X509 (fp : handle) (x : ptr) : M Z :=
  match x with
  | None => crash
  | Some x =>
      c <- load_X509 x ;;
      if fails env at_PEM_write_X509 then ret 0
      else (fwrite_block fp (PemX509 c) ;; ret 1)
  end.

End Libraries.

(** ** PostgreSQL and Citus collaborators *)

(** [ereport] / [elog]: at ERROR the call does not return; below it the
    message goes to the server log. *)
Definition ereport (lvl : elevel) (msg : string) : M unit :=
  match lvl with
  | ERROR => fun w => (Error msg, w)
  | _ => modify (upd_server_log (fun l => (l ++ [(lvl, msg)])%list))
  end.

Definition elog := ereport.

Fixpoint strip_prefix (p s : string) : option string :=
  match p, s with
  | EmptyString, _ => Some s
  | String a p', String b s' => if Ascii.eqb a b then strip_prefix p' s' else None
  | String _ _, EmptyString => None
  end.

Fixpoint split_at (sep s : string) : option (string * string) :=
  match strip_prefix sep s with
  | Some rest => Some (EmptyString, rest)
  | None =>
      match s with
      | EmptyString => None
      | String c r =>
          match split_at sep r with
          | Some (a, b) => Some (String c a, b)
          | None => None
          end
      end
  end.

Fixpoint strip_suffix (suf s : string) : option string :=
  if String.eqb s suf then Some EmptyString
  else
    match s with
    | EmptyString => None
    | String c r =>
        match strip_suffix suf r with
        | Some a => Some (String c a)
        | None => None
        end
    end.

Definition unquote (s : string) : string :=
  match strip_prefix "'" s with
  | Some r =>
      match strip_suffix "'" r with
      | Some v => v
      | None => s
      end
  | None => s
  end.

Definition parse_alter_system (query : string) : option AlterSystemStmt :=
  match strip_prefix "ALTER SYSTEM SET " query with
  | Some rest =>
      match split_at " TO " rest with
      | Some (name, v) =>
          match strip_suffix ";" v with
          | Some v => Some {| setting_name := name; setting_value := unquote v |}
          | None => None
          end
      | None => None
      end
  | None => None
  end.

(** Modelled from the spec: ParseTreeNode is not in this file.  It turns the
    text of a configuration-change statement into the statement the
    configuration store accepts; only the form this file issues,
    [ALTER SYSTEM SET name TO value;], is read. *)
Definition ParseTreeNode (query : string) : M AlterSystemStmt :=
  match parse_alter_system (c_str query) with
  | Some stmt => ret stmt
  | None => ereport ERROR "syntax error" ;; crash
  end.

(** Modelled from the spec: AlterSystemSetConfigFile is PostgreSQL's.  It is
    the configuration store collaborator: it accepts the change and persists
    it durably. *)
Definition AlterSystemSetConfigFile (stmt : AlterSystemStmt) : M unit :=
  modify (upd_auto_conf <[setting_name stmt := setting_value stmt]>).

Definition PGFunction := FunctionCallInfoData -> M (Datum * FunctionCallInfoData).

(** Modelled from the spec: pg_reload_conf is PostgreSQL's.  It asks the
    server to read the persisted configuration again, and returns true. *)
Definition pg_reload_conf : PGFunction :=
  fun fcinfo =>
    modify (upd_reload_requests S) ;;
    ret (BoolGetDatum true, fcinfo).

(** Modelled from the spec: ProcessConfigFile is PostgreSQL's.  It reads the
    configuration file into the running backend; what that changes there is
    the collaborator's business and is not recorded beyond the read. *)
Definition ProcessConfigFile (context : GucContext) : M unit :=
  modify (upd_config_file_reads S).

(** Modelled from the spec: GetConnParam is not in this file.  It is the
    connection-parameter reader of the spec, which exposes the current value
    of the outward-connection security-mode setting as a string; "sslmode"
    is the one keyword this file asks for. *)
Definition GetConnParam (keyword : string) : M string :=
  gets (fun w => c_str (node_conninfo_sslmode w)).

Definition InitFunctionCallInfoData (n : Z) (collation : Oid) : FunctionCallInfoData :=
  {| nargs := n; fncollation := collation; isnull := false |}.

Definition PG_RETURN_NULL (fcinfo : FunctionCallInfoData) : M (Datum * FunctionCallInfoData) :=
  ret (DatumZero, {| nargs := nargs fcinfo; fncollation := fncollation fcinfo;
                     isnull := true |}).

(** [MemoryContextRegisterResetCallback]: the callback goes to the head of
    the context's list. *)
Definition MemoryContextRegisterResetCallback
    (cb : MemoryContextCallbackFunction * ptr) : M unit :=
  modify (upd_callbacks (cons cb)).

(** What the release functions do.  Each accepts NULL and then does nothing;
    [EVP_PKEY_free] releases the RSA structure the wrapper owns with it. *)
Definition release (h : handle) (w : world) : world :=
  upd_released (cons h) (upd_heap (delete h) w).

Definition call_free (f : MemoryContextCallbackFunction) (arg : ptr) (w : world) : world :=
  match arg with
  | None => w
  | Some h =>
      match f, heap w !! h with
      | EVP_PKEY_free, Some (EVP_PKEY_obj (Some r)) => release h (release r w)
      | _, _ => release h w
      end
  end.

(** Teardown of the memory context, on commit as on abort: the registered
    callbacks run, most recently registered first, each once. *)
Definition MemoryContextCallResetCallbacks (w : world) : world :=
  fold_left (fun w cb => call_free (fst cb) (snd cb) w)
            (callbacks w) (upd_callbacks (fun _ => []) w).

Definition is_null (p : ptr) : bool :=
  match p with
  | None => true
  | Some _ => false
  end.

(** ** enable_ssl.c *)

Definition ENABLE_SSL_QUERY : string := "ALTER SYSTEM SET ssl TO on;".
Definition RESET_CITUS_NODE_CONNINFO : string :=
  "ALTER SYSTEM SET citus.node_conninfo TO 'sslmode=prefer';".

Definition CITUS_AUTO_SSL_COMMON_NAME : string := "citus-auto-ssl".
Definition X509_SUBJECT_COMMON_NAME : string := "CN".

Section Program.

Variable env : environment.

Definition DirectFunctionCall0Coll (func : PGFunction) (collation : Oid) : M Datum :=
  let fcinfo := InitFunctionCallInfoData 0 collation in
  r <- func fcinfo ;;
  let result := fst r in
  if isnull (snd r)
  then (elog ERROR "function returned NULL" ;; ret result)
  else ret result.

Definition DirectFunctionCall0 (func : PGFunction) : M Datum :=
  DirectFunctionCall0Coll func InvalidOid.

Definition EnsureReleaseOpenSSLResource
    (free : MemoryContextCallbackFunction) (arg : ptr) : M unit :=
  let cb := (free, arg) in
  MemoryContextRegisterResetCallback cb.

Definition ShouldUseAutoSSL : M bool :=
  sslmode <- GetConnParam "sslmode" ;;
  if strcmp sslmode "require" =? 0
  then ret true
  else ret false.

Definition GeneratePrivateKey : M ptr :=
  privateKey <- EVP_PKEY_new env ;;
  if is_null privateKey
  then (ereport ERROR "unable to allocate space for private key" ;; ret NULL)
  else
  EnsureReleaseOpenSSLResource EVP_PKEY_free privateKey ;;
  exponent <- BN_new env ;;
  EnsureReleaseOpenSSLResource BN_free exponent ;;
  ret_ <- BN_set_word env exponent RSA_F4 ;;
  if negb (ret_ =? 1)
  then (ereport ERROR "unable to prepare exponent for RSA algorithm" ;; ret NULL)
  else
  rsa <- RSA_new env ;;
  ret_ <- RSA_generate_key_ex env rsa 2048 exponent NULL ;;
  if negb (ret_ =? 1)
  then (ereport ERROR "unable to generate RSA key" ;; ret NULL)
  else
  assigned <- EVP_PKEY_assign_RSA env privateKey rsa ;;
  if assigned =? 0
  then (ereport ERROR "unable to assign RSA key to use as private key" ;; ret NULL)
  else
  ret privateKey.

Definition CreateCertificate (privateKey : ptr) : M ptr :=
  certificate <- X509_new env ;;
  match certificate with
  | None =>
      ereport ERROR "unable to allocate space for the x509 certificate" ;; ret NULL
  | Some x =>
      EnsureReleaseOpenSSLResource X509_free certificate ;;
      ASN1_INTEGER_set env (X509_get_serialNumber x) 1 ;;
      X509_gmtime_adj env (X509_get_notBefore x) 0 ;;
      X509_gmtime_adj env (X509_get_notAfter x) 0 ;;
      X509_set_pubkey env x privateKey ;;
      let subjectName := X509_get_subject_name x in
      X509_NAME_add_entry_by_txt env subjectName X509_SUBJECT_COMMON_NAME MBSTRING_ASC
        CITUS_AUTO_SSL_COMMON_NAME (-1) (-1) 0 ;;
      X509_set_issuer_name env x subjectName ;;
      signed <- X509_sign env x privateKey EVP_sha256 ;;
      if signed =? 0
      then (ereport ERROR "unable to create signature for the x509 certificate" ;;
            ret NULL)
      else ret certificate
  end.

Definition StoreCertificate (privateKey : ptr) (certificate : ptr) : M bool :=
  privateKeyFilename <- gets ssl_key_file ;;
  certificateFilename <- gets ssl_cert_file ;;
  privateKeyFile <- fopen privateKeyFilename "wb" ;;
  match privateKeyFile with
  | None =>
      ereport ERROR ("unable to open private key file '" ++ privateKeyFilename
                     ++ "' for writing") ;;
      ret false
  | Some keyfp =>
      success <- PEM_write_PrivateKey env keyfp privateKey NULL NULL 0 NULL NULL ;;
      fclose env at_fclose_privateKeyFile keyfp ;;
      if success =? 0
      then (ereport ERROR "unable to store private key" ;; ret false)
      else
      certificateFile <- fopen certificateFilename "wb" ;;
      match certificateFile with
      | None =>
          ereport ERROR ("unable to open certificate file '" ++ certificateFilename
                         ++ "' for writing") ;;
          ret false
      | Some certfp =>
          success <- PEM_write_X509 env certfp certificate ;;
          fclose env at_fclose_certificateFile certfp ;;
          if success =? 0
          then (ereport ERROR "unable to store certificate" ;; ret false)
          else ret true
      end
  end.

Definition CreateCertificatesWhenNeeded : M bool :=
  OPENSSL_init_ssl ;;
  sslContext <- SSL_CTX_new env ;;
  if is_null sslContext
  then ret false
  else
  EnsureReleaseOpenSSLResource SSL_CTX_free sslContext ;;
  certfile <- gets ssl_cert_file ;;
  loaded <- SSL_CTX_use_certificate_chain_file sslContext certfile ;;
  if loaded =? 1
  then ret false
  else
  elog LOG "no certificate present, generating self signed certificate" ;;
  privateKey <- GeneratePrivateKey ;;
  if is_null privateKey
  then (ereport ERROR "error while generating private key" ;; ret false)
  else
  certificate <- CreateCertificate privateKey ;;
  if is_null certificate
  then (ereport ERROR "error while generating certificate" ;; ret false)
  else
  certificateWritten <- StoreCertificate privateKey certificate ;;
  if negb certificateWritten
  then (ereport ERROR "error while storing key and certificate" ;; ret false)
  else
  ret true.

Definition citus_setup_ssl (b : build) : PGFunction :=
  fun fcinfo =>
    (if negb (USE_SSL b)
     then
       ereport WARNING
         "can not setup ssl on postgres that is not compiled with ssl support"
     else
       ssl_on <- gets EnableSSL ;;
       auto <- (if negb ssl_on then ShouldUseAutoSSL else ret false) ;;
       if auto
       then
         elog LOG
           "citus extension created on postgres without ssl enabled, turning it on during creation of the extension" ;;
         enableSSLParseTree <- ParseTreeNode ENABLE_SSL_QUERY ;;
         AlterSystemSetConfigFile enableSSLParseTree ;;
         CreateCertificatesWhenNeeded ;;
         if 100000 <=? PG_VERSION_NUM b
         then
           DirectFunctionCall0 pg_reload_conf ;;
           ProcessConfigFile PGC_SIGHUP
         else
           ereport WARNING "restart of postgres required"
       else ret tt) ;;
    PG_RETURN_NULL fcinfo.

Definition citus_reset_default_for_node_conninfo : PGFunction :=
  fun fcinfo =>
    elog LOG
      "reset citus.node_conninfo to old default value as the new value is incompatible with the current ssl setting" ;;
    resetCitusNodeConnInfoParseTree <- ParseTreeNode RESET_CITUS_NODE_CONNINFO ;;
    AlterSystemSetConfigFile resetCitusNodeConnInfoParseTree ;;
    DirectFunctionCall0 pg_reload_conf ;;
    ProcessConfigFile PGC_SIGHUP ;;
    PG_RETURN_NULL fcinfo.

End Program.

(** * Notions used in the statements *)

(** ** The worlds the steps of the pipeline lead to, when every call succeeds *)

(** The key [RSA_generate_key_ex] is asked for. *)
Definition generated_key (env : environment) : RSA_key :=
  {| rsa_bits := 2048; rsa_e := 65537; rsa_secret := entropy env |}.

Definition after_GeneratePrivateKey (env : environment) (w : world) : world :=
  let n := next_handle w in
  upd_callbacks (fun l => (BN_free, Some (S n)) :: (EVP_PKEY_free, Some n) :: l)
    (upd_next_handle (fun _ => S (S (S n)))
      (upd_heap (fun m => <[n := EVP_PKEY_obj (Some (S (S n)))]>
                          (<[S (S n) := RSA_obj (Some (generated_key env))]>
                           (<[S n := BIGNUM_obj RSA_F4]> m))) w)).

(** The certificate [CreateCertificate] builds for key [k] at time [t]. *)
Definition self_signed_fields (k : RSA_key) (t : Z) : X509_CINF :=
  {| serialNumber := 1;
     notBefore := Some t;
     notAfter := Some t;
     issuer := [(X509_SUBJECT_COMMON_NAME, CITUS_AUTO_SSL_COMMON_NAME)];
     subject := [(X509_SUBJECT_COMMON_NAME, CITUS_AUTO_SSL_COMMON_NAME)];
     key := Some (RSA_public k) |}.

Definition self_signed_certificate (k : RSA_key) (t : Z) : X509 :=
  {| cert_info := self_signed_fields k t;
     signature := Some {| sig_md := EVP_sha256; sig_signer := rsa_secret k;
                          sig_over := self_signed_fields k t |} |}.

Definition after_CreateCertificate (c : X509) (w : world) : world :=
  let n := next_handle w in
  upd_callbacks (cons (X509_free, Some n))
    (upd_next_handle S (upd_heap <[n := X509_obj c]> w)).

Definition after_StoreCertificate (k : RSA_key) (c : X509) (w : world) : world :=
  let n := next_handle w in
  upd_files (fun fs => <[ssl_cert_file w := [PemX509 c]]>
                       (<[ssl_key_file w := [PemPrivateKey k]]> fs))
    (upd_streams (fun ss => delete (S n) (delete n ss))
      (upd_next_handle (fun _ => S (S n)) w)).

(** The certificate file holds a certificate that loads. *)
Definition certificate_present (w : world) : Prop :=
  is_Some (loadable_certificate (files w) (ssl_cert_file w)).

(** The world after the probe found nothing and generation was announced. *)
Definition after_probe (w : world) : world :=
  let n := next_handle w in
  upd_server_log
    (fun l => (l ++ [(LOG, "no certificate present, generating self signed certificate")])%list)
    (upd_callbacks (cons (SSL_CTX_free, Some n))
      (upd_next_handle S (upd_heap <[n := SSL_CTX_obj None]> w))).

(** The world in which the fresh key and certificate are ready to be stored. *)
Definition after_generation (env : environment) (w : world) : world :=
  after_CreateCertificate (self_signed_certificate (generated_key env) (now w))
    (after_GeneratePrivateKey env (after_probe w)).

Definition after_CreateCertificatesWhenNeeded (env : environment) (w : world) : world :=
  after_StoreCertificate (generated_key env)
    (self_signed_certificate (generated_key env) (now w))
    (after_generation env w).

(** ** Results *)

(** What the entry points return: [PG_RETURN_NULL]. *)
Definition returned_null (fcinfo : FunctionCallInfoData) : Datum * FunctionCallInfoData :=
  (DatumZero, {| nargs := nargs fcinfo; fncollation := fncollation fcinfo;
                 isnull := true |}).

(** ** The world after a probe that found a certificate *)

(** The world after the probe context was allocated, registered and loaded
    with the certificate [c] found in the certificate file. *)
Definition after_load (c : X509) (w : world) : world :=
  let n := next_handle w in
  upd_callbacks (cons (SSL_CTX_free, Some n))
    (upd_next_handle S (upd_heap <[n := SSL_CTX_obj (Some c)]> w)).

(** ** Persistence errors *)

Definition open_key_error (w : world) : string :=
  "unable to open private key file '" ++ ssl_key_file w ++ "' for writing".

Definition open_certificate_error (w : world) : string :=
  "unable to open certificate file '" ++ ssl_cert_file w ++ "' for writing".

(** The errors [StoreCertificate] raises: the CredentialPersistenceFailure of
    the spec, by file and by open or write. *)
Definition CredentialPersistenceFailure (w : world) (msg : string) : Prop :=
  msg = open_key_error w \/ msg = "unable to store private key" \/
  msg = open_certificate_error w \/ msg = "unable to store certificate".

(** What the key file holds once the key has been written and the stream
    closed: the key, or nothing when the write or the flush failed. *)
Definition key_file_written (env : environment) (k : RSA_key) : file :=
  if fails env at_PEM_write_PrivateKey || fails env at_fclose_privateKeyFile
  then []
  else [PemPrivateKey k].

Definition after_key_written (env : environment) (k : RSA_key) (w : world) : world :=
  let n := next_handle w in
  upd_files <[ssl_key_file w := key_file_written env k]>
    (upd_streams (delete n) (upd_next_handle S w)).

(** ** Sample worlds *)

Module Sample.

(** A node right after installation: ssl off, outward connections require
    ssl, no credentials on disk. *)
Definition fresh_node : world :=
  {| EnableSSL := false;
     ssl_cert_file := "server.crt";
     ssl_key_file := "server.key";
     node_conninfo_sslmode := "require";
     auto_conf := ∅;
     reload_requests := 0;
     config_file_reads := 0;
     server_log := [];
     files := ∅;
     unwritable := ∅;
     streams := ∅;
     heap := ∅;
     next_handle := 0;
     callbacks := [];
     released := [];
     now := 1541030400 |}.

(** The same node with the certificate path read-only. *)
Definition read_only_certificate_path : world :=
  {| EnableSSL := false;
     ssl_cert_file := "server.crt";
     ssl_key_file := "server.key";
     node_conninfo_sslmode := "require";
     auto_conf := ∅;
     reload_requests := 0;
     config_file_reads := 0;
     server_log := [];
     files := ∅;
     unwritable := {["server.crt"]};
     streams := ∅;
     heap := ∅;
     next_handle := 0;
     callbacks := [];
     released := [];
     now := 1541030400 |}.

(** PostgreSQL 11 built with OpenSSL. *)
Definition pg11 : build := {| USE_SSL := true; PG_VERSION_NUM := 110000 |}.

Definition fcinfo0 : FunctionCallInfoData := InitFunctionCallInfoData 0 InvalidOid.

(** Every library call succeeds. *)
Definition healthy : environment := failing [] 7.

(** The fresh node after [CreateCertificatesWhenNeeded] has provisioned it. *)
Definition provisioned_node : world :=
  snd (CreateCertificatesWhenNeeded healthy fresh_node).

(** The fresh node with a generated key, at address 0. *)
Definition with_key : world := snd (GeneratePrivateKey healthy fresh_node).

(** PostgreSQL 9.6 built with OpenSSL, and PostgreSQL 11 built without. *)
Definition pg96 : build := {| USE_SSL := true; PG_VERSION_NUM := 90600 |}.
Definition pg11_without_ssl : build := {| USE_SSL := false; PG_VERSION_NUM := 110000 |}.

End Sample.

(** ** Scenarios *)

(** The world is the one a call left behind in which every step succeeded
    and which reported that it created the credentials. *)
Definition after_successful_call (w : world) : Prop :=
  exists env0 w0,
    all_succeed env0 /\ CreateCertificatesWhenNeeded env0 w0 = (Done true, w).

(** The node is one [citus_setup_ssl] acts on: ssl is off and outward
    connections require ssl. *)
Definition bootstrap_applies (w : world) : Prop :=
  EnableSSL w = false /\ c_str (node_conninfo_sslmode w) = "require".

(** ** Observations *)

(** The certificate a call of [CreateCertificate] returns, if it returns one. *)
Definition returned_certificate (env : environment) (privateKey : ptr) (w : world)
    : option X509 :=
  match CreateCertificate env privateKey w with
  | (Done (Some x), w') =>
      match heap w' !! x with
      | Some (X509_obj c) => Some c
      | _ => None
      end
  | _ => None
  end.

(** The calls whose status the file tests, and those whose status it
    discards. *)
Definition checked_sites : list site :=
  [at_EVP_PKEY_new; at_BN_set_word; at_RSA_generate_key_ex; at_EVP_PKEY_assign_RSA;
   at_X509_new; at_X509_sign; at_PEM_write_PrivateKey; at_PEM_write_X509].

Definition discarded_sites : list site :=
  [at_ASN1_INTEGER_set; at_X509_gmtime_adj_notBefore; at_X509_gmtime_adj_notAfter;
   at_X509_set_pubkey; at_X509_NAME_add_entry_by_txt; at_X509_set_issuer_name;
   at_fclose_privateKeyFile; at_fclose_certificateFile].

Definition unchecked_allocations : list site := [at_BN_new; at_RSA_new].

Definition outcome_of (s : site) : outcome bool :=
  fst (CreateCertificatesWhenNeeded (failing [s] 7) Sample.fresh_node).

Definition raises (o : outcome bool) : bool :=
  match o with
  | Error _ => true
  | _ => false
  end.

(** ** What a run leaves alone *)

(** The settings the functions read, the paths that cannot be opened and the
    clock. *)
Definition same_settings (w w' : world) : Prop :=
  EnableSSL w' = EnableSSL w
  /\ ssl_cert_file w' = ssl_cert_file w
  /\ ssl_key_file w' = ssl_key_file w
  /\ node_conninfo_sslmode w' = node_conninfo_sslmode w
  /\ unwritable w' = unwritable w
  /\ now w' = now w.

Definition same_configuration (w w' : world) : Prop :=
  auto_conf w' = auto_conf w
  /\ reload_requests w' = reload_requests w
  /\ config_file_reads w' = config_file_reads w.

(** Nothing is released, callbacks are only registered, the log only grows. *)
Definition only_registers (w w' : world) : Prop :=
  released w' = released w
  /\ (exists added, callbacks w' = (added ++ callbacks w)%list)
  /\ (exists logged, server_log w' = (server_log w ++ logged)%list).

(** A file is what it was unless it is the key file or the certificate
    file, it can be opened for writing, and so can the key file. *)
Definition only_credential_files (w w' : world) : Prop :=
  forall path : string,
    (path <> ssl_key_file w /\ path <> ssl_cert_file w)
    \/ path ∈ unwritable w
    \/ ssl_key_file w ∈ unwritable w ->
    files w' !! path = files w !! path.

(** What the steps that work on OpenSSL objects leave alone, and what the
    whole of the credential creation leaves alone. *)
Definition memory_frame (w w' : world) : Prop :=
  same_settings w w' /\ same_configuration w w' /\ only_registers w w'
  /\ files w' = files w /\ streams w' = streams w.

Definition credentials_frame (w w' : world) : Prop :=
  same_settings w w' /\ same_configuration w w' /\ only_registers w w'
  /\ only_credential_files w w'.

(** Every run of [m] is in the relation [F]; a result satisfies [D] and an
    error [E], both in the world the run ends in. *)
Definition triple {A} (F : world -> world -> Prop) (m : M A)
    (D : world -> A -> Prop) (E : world -> string -> Prop) : Prop :=
  forall w o w', m w = (o, w') ->
    F w w' /\ match o with
              | Done a => D w' a
              | Error msg => E w' msg
              | Crashed => True
              end.

Definition anything {A} : world -> A -> Prop := fun _ _ => True.
Definition no_error : world -> string -> Prop := fun _ _ => False.

(** ** Errors *)

(** The messages of the [ereport(ERROR)] calls of [GeneratePrivateKey] and
    of [CreateCertificate], and those [CreateCertificatesWhenNeeded] has for
    a step that returns failure. *)
Definition GeneratePrivateKey_errors : list string :=
  [ "unable to allocate space for private key";
    "unable to prepare exponent for RSA algorithm";
    "unable to generate RSA key";
    "unable to assign RSA key to use as private key" ].

Definition CreateCertificate_errors : list string :=
  [ "unable to allocate space for the x509 certificate";
    "unable to create signature for the x509 certificate" ].

Definition CreateCertificatesWhenNeeded_errors : list string :=
  [ "error while generating private key";
    "error while generating certificate";
    "error while storing key and certificate" ].

Definition step_error (w : world) (msg : string) : Prop :=
  In msg GeneratePrivateKey_errors \/ In msg CreateCertificate_errors
  \/ CredentialPersistenceFailure w msg.

(** ** Signatures *)

(** The certificate carries a SHA-256 signature over the fields it has, made
    with the key [privateKey] holds in [w]. *)
Definition signed_with (privateKey : ptr) (w : world) (c : X509) : Prop :=
  exists p k,
    privateKey = Some p
    /\ fst (key_of p w) = Done (Some k)
    /\ signature c = Some {| sig_md := EVP_sha256; sig_signer := rsa_secret k;
                             sig_over := cert_info c |}.

(** ** The steps after the probe *)

(** What [CreateCertificatesWhenNeeded] does once the probe has found no
    certificate and generation has been announced. *)
Abbreviation generate_and_store env :=
  (privateKey <- GeneratePrivateKey env ;;
   if is_null privateKey
   then (ereport ERROR "error while generating private key" ;; ret false)
   else
   certificate <- CreateCertificate env privateKey ;;
   if is_null certificate
   then (ereport ERROR "error while generating certificate" ;; ret false)
   else
   certificateWritten <- StoreCertificate env privateKey certificate ;;
   if negb certificateWritten
   then (ereport ERROR "error while storing key and certificate" ;; ret false)
   else
   ret true)%run.

(** The world in which [citus_setup_ssl] has announced the change and
    persisted [ssl = on]. *)
Definition after_ssl_on (w : world) : world :=
  upd_auto_conf <["ssl" := "on"]>
    (upd_server_log
       (fun l => (l ++ [(LOG, "citus extension created on postgres without ssl enabled, turning it on during creation of the extension")])%list)
       w).

(** The world after the reload of the configuration, and after the warning
    that stands for it before PostgreSQL 10. *)
Definition after_reload (w : world) : world :=
  upd_config_file_reads S (upd_reload_requests S w).

Definition after_restart_warning (w : world) : world :=
  upd_server_log (fun l => (l ++ [(WARNING, "restart of postgres required")])%list) w.

(** A node on which the key and the certificate are configured to live in
    one file. *)
Definition single_file_node : world :=
  {| EnableSSL := false;
     ssl_cert_file := "server.pem";
     ssl_key_file := "server.pem";
     node_conninfo_sslmode := "require";
     auto_conf := ∅;
     reload_requests := 0;
     config_file_reads := 0;
     server_log := [];
     files := ∅;
     unwritable := ∅;
     streams := ∅;
     heap := ∅;
     next_handle := 0;
     callbacks := [];
     released := [];
     now := 1541030400 |}.

(** ** Assertions on the worlds of a run *)

(** From a world that satisfies [P], a run of [m] that returns [a] ends in a
    world that satisfies [Q a], and one that raises an error ends in a world
    that satisfies [R]. *)
Definition hoare {A} (P : world -> Prop) (m : M A)
    (Q : A -> world -> Prop) (R : world -> Prop) : Prop :=
  forall w o w', P w -> m w = (o, w') ->
    match o with
    | Done a => Q a w'
    | Error _ => R w'
    | Crashed => True
    end.

(** ** Objects registered for release *)

Definition is_RSA (o : object) : Prop :=
  match o with
  | RSA_obj _ => True
  | _ => False
  end.

(** A callback of the memory context names the object. *)
Definition registered_in
    (cbs : list (MemoryContextCallbackFunction * ptr)) (h : handle) : Prop :=
  exists free, In (free, Some h) cbs.

(** No object lives at an address the allocator has not handed out yet, and
    every object at an address from [n0] on is an RSA structure, or is
    registered for release, or is the one [pending], allocated and about to
    be registered. *)
Definition allocations_registered (n0 : handle) (pending : ptr)
    (hp : gmap handle object) (n : handle)
    (cbs : list (MemoryContextCallbackFunction * ptr)) : Prop :=
  (forall h, (n <= h)%nat -> hp !! h = None)
  /\ forall h obj, (n0 <= h)%nat -> hp !! h = Some obj ->
       is_RSA obj \/ registered_in cbs h \/ pending = Some h.

Definition objects_registered (n0 : handle) (pending : ptr) (w : world) : Prop :=
  allocations_registered n0 pending (heap w) (next_handle w) (callbacks w).

(** ** The key and the certificate of a run *)

(** [p] is an EVP_PKEY that owns the RSA structure [r], which holds [k]. *)
Definition key_at (p r : handle) (k : RSA_key) (w : world) : Prop :=
  heap w !! p = Some (EVP_PKEY_obj (Some r))
  /\ heap w !! r = Some (RSA_obj (Some k))
  /\ (p < next_handle w)%nat /\ (r < next_handle w)%nat.

(** The certificate carries a SHA-256 signature made with [k] over the
    fields it has. *)
Definition signed_by (k : RSA_key) (c : X509) : Prop :=
  signature c = Some {| sig_md := EVP_sha256; sig_signer := rsa_secret k;
                        sig_over := cert_info c |}.

(** What is on disk when both streams have been flushed: the key file holds
    the key (unless it is also the certificate file), the certificate file
    the certificate. *)
Definition credentials_stored (env : environment) (k : RSA_key) (c : X509)
    (w : world) : Prop :=
  (fails env at_fclose_certificateFile = false ->
   files w !! ssl_cert_file w = Some [PemX509 c])
  /\ (fails env at_fclose_privateKeyFile = false ->
      ssl_key_file w <> ssl_cert_file w ->
      files w !! ssl_key_file w = Some [PemPrivateKey k]).

(** ** Streams *)

(** Every stream that is open in [w] was open in [ss], with the same
    content: none has been opened and left open since. *)
Definition streams_within (ss : gmap handle (string * file)) (w : world) : Prop :=
  forall h s, streams w !! h = Some s -> ss !! h = Some s.

(** ** The fields of the certificate, call by call *)

(** The fields [CreateCertificate] leaves in the certificate for the key [k]
    at time [t]: each is the one of [self_signed_fields] when the call that
    sets it succeeded, and the one of the blank certificate when that call
    failed; the issuer is a copy of the subject as it is then. *)
Definition fields_set (env : environment) (k : RSA_key) (t : Z) : X509_CINF :=
  let name :=
    if fails env at_X509_NAME_add_entry_by_txt then []
    else [(X509_SUBJECT_COMMON_NAME, CITUS_AUTO_SSL_COMMON_NAME)] in
  {| serialNumber := if fails env at_ASN1_INTEGER_set then 0 else 1;
     notBefore := if fails env at_X509_gmtime_adj_notBefore then None else Some t;
     notAfter := if fails env at_X509_gmtime_adj_notAfter then None else Some t;
     issuer := if fails env at_X509_set_issuer_name then [] else name;
     subject := name;
     key := if fails env at_X509_set_pubkey then None else Some (RSA_public k) |}.

(** The certificate with these fields, signed with [k]. *)
Definition certificate_set (env : environment) (k : RSA_key) (t : Z) : X509 :=
  {| cert_info := fields_set env k t;
     signature := Some {| sig_md := EVP_sha256; sig_signer := rsa_secret k;
                          sig_over := fields_set env k t |} |}.

(** [x] is the certificate [c], beside the key, at time [t]. *)
Definition certificate_is (p r : handle) (k : RSA_key) (t : Z) (x : handle)
    (c : X509) (w : world) : Prop :=
  heap w !! p = Some (EVP_PKEY_obj (Some r))
  /\ heap w !! r = Some (RSA_obj (Some k))
  /\ heap w !! x = Some (X509_obj c)
  /\ p <> x /\ r <> x /\ now w = t.

(** * Lemmas about the runs *)

(** ** C strings *)

Lemma byte_inj c1 c2 : byte c1 = byte c2 -> c1 = c2.
Proof.
  unfold byte. intros H. apply Z2N.inj_iff in H; try lia.
  rewrite !N2Z.id in H.
  rewrite <- (ascii_N_embedding c1), <- (ascii_N_embedding c2). congruence.
Qed.

Lemma byte_NUL c : byte c = 0 <-> c = NUL.
Proof.
  split.
  - intros H. apply byte_inj. rewrite H. reflexivity.
  - intros ->. reflexivity.
Qed.

Lemma c_str_idemp s : c_str (c_str s) = c_str s.
Proof.
  induction s as [|c r IH]; simpl; [reflexivity|].
  destruct (Ascii.eqb c NUL) eqn:E; simpl; [reflexivity|].
  rewrite E, IH. reflexivity.
Qed.

(** [strcmp] returns zero exactly on equal C strings. *)
Lemma strcmp_0 s1 s2 : strcmp s1 s2 = 0 <-> c_str s1 = c_str s2.
Proof.
  revert s2. induction s1 as [|c1 r1 IH]; intros [|c2 r2]; simpl.
  - tauto.
  - destruct (Ascii.eqb_spec c2 NUL) as [->|Hc].
    + change (byte NUL) with 0. split; [reflexivity | lia].
    + split; [|discriminate]. intros H. exfalso. apply Hc, byte_NUL. lia.
  - destruct (Ascii.eqb_spec c1 NUL) as [->|Hc].
    + change (byte NUL) with 0. split; [reflexivity | lia].
    + split; [|discriminate]. intros H. exfalso. apply Hc, byte_NUL. lia.
  - destruct (Z.eqb_spec (byte c1) (byte c2)) as [Hb|Hb].
    + apply byte_inj in Hb. subst c2.
      destruct (Ascii.eqb_spec c1 NUL) as [->|Hc]; [tauto|].
      rewrite IH. split; [congruence|]. intros H. congruence.
    + split; [lia|]. intros H. exfalso. apply Hb. revert H.
      destruct (Ascii.eqb_spec c1 NUL) as [->|H1];
        destruct (Ascii.eqb_spec c2 NUL) as [->|H2];
        intros H; try discriminate; congruence.
Qed.

(** ** Runs *)

Lemma bind_Done {A B} (m : M A) (k : A -> M B) w a w' :
  m w = (Done a, w') -> bind m k w = k a w'.
Proof. unfold bind. intros ->. reflexivity. Qed.

Lemma bind_Error {A B} (m : M A) (k : A -> M B) w msg w' :
  m w = (Error msg, w') -> bind m k w = (Error msg, w').
Proof. unfold bind. intros ->. reflexivity. Qed.

Lemma bind_Crashed {A B} (m : M A) (k : A -> M B) w w' :
  m w = (Crashed, w') -> bind m k w = (Crashed, w').
Proof. unfold bind. intros ->. reflexivity. Qed.

(** ** Symbolic execution *)

Ltac unfold_libraries :=
  unfold SSL_CTX_use_certificate_chain_file, BN_set_word, RSA_generate_key_ex,
    EVP_PKEY_assign_RSA, ASN1_INTEGER_set, X509_gmtime_adj, X509_set_pubkey,
    X509_NAME_add_entry_by_txt, X509_set_issuer_name, X509_sign,
    PEM_write_PrivateKey, PEM_write_X509,
    X509_get_serialNumber, X509_get_notBefore, X509_get_notAfter,
    X509_get_subject_name, read_name, write_name, update_X509, key_of, load_X509,
    fopen, fclose, fwrite_block,
    SSL_CTX_new, EVP_PKEY_new, BN_new, RSA_new, X509_new, new_object,
    EnsureReleaseOpenSSLResource, MemoryContextRegisterResetCallback, elog, ereport.

Ltac heap_step :=
  first
    [ rewrite lookup_insert_eq
    | rewrite lookup_insert_ne by (simpl; lia)
    | rewrite lookup_delete_eq
    | rewrite lookup_delete_ne by (simpl; lia) ].

Ltac run_with tac :=
  repeat (progress (unfold bind, ret, alloc, load, store, modify, gets, crash; simpl)
          || heap_step || tac).

Ltac run := run_with fail.

Lemma insert_shadow2 {V} (m : gmap handle V) a b x x0 y :
  a ≠ b ->
  <[a:=x]> (<[b:=y]> (<[a:=x0]> m)) = <[a:=x]> (<[b:=y]> m).
Proof.
  intros Hab. rewrite (insert_insert_ne _ b a) by congruence.
  rewrite insert_insert_eq. reflexivity.
Qed.

Lemma insert_shadow3 {V} (m : gmap handle V) a b c x x0 y z :
  a ≠ b -> a ≠ c ->
  <[a:=x]> (<[b:=y]> (<[c:=z]> (<[a:=x0]> m))) = <[a:=x]> (<[b:=y]> (<[c:=z]> m)).
Proof.
  intros Hab Hac. rewrite (insert_insert_ne _ c a) by congruence.
  apply insert_shadow2. exact Hab.
Qed.

(** ** The steps of the generation pipeline, when every call succeeds *)

Lemma GeneratePrivateKey_ok env w :
  all_succeed env ->
  GeneratePrivateKey env w
  = (Done (Some (next_handle w)), after_GeneratePrivateKey env w).
Proof.
  intros Hall. destruct w as [? ? ? ? ? ? ? ? ? ? ? hp n ? ? ?].
  unfold GeneratePrivateKey. unfold_libraries. rewrite !Hall.
  run. unfold after_GeneratePrivateKey; simpl. f_equal. f_equal.
  rewrite !insert_insert_eq. apply insert_shadow3; lia.
Qed.

Lemma CreateCertificate_ok env w p r k :
  all_succeed env ->
  8 <= rsa_bits k ->
  heap w !! p = Some (EVP_PKEY_obj (Some r)) ->
  heap w !! r = Some (RSA_obj (Some k)) ->
  p ≠ next_handle w -> r ≠ next_handle w ->
  CreateCertificate env (Some p) w
  = (Done (Some (next_handle w)),
     after_CreateCertificate (self_signed_certificate k (now w)) w).
Proof.
  intros Hall Hbits Hp Hr Hpn Hrn. destruct w as [? ? ? ? ? ? ? ? ? ? ? hp n ? ? t].
  simpl in *.
  assert (Hsize : (rsa_bits k / 8 =? 0) = false).
  { apply Z.eqb_neq. intros E. apply Z.div_small_iff in E; lia. }
  unfold CreateCertificate. unfold_libraries. rewrite !Hall.
  run_with ltac:(rewrite Hp || rewrite Hr || rewrite Hsize).
  unfold after_CreateCertificate; simpl.
  rewrite !insert_insert_eq, !Z.add_0_r. reflexivity.
Qed.

Lemma StoreCertificate_ok env w p r k x c :
  all_succeed env ->
  heap w !! p = Some (EVP_PKEY_obj (Some r)) ->
  heap w !! r = Some (RSA_obj (Some k)) ->
  heap w !! x = Some (X509_obj c) ->
  ssl_key_file w ∉ unwritable w ->
  ssl_cert_file w ∉ unwritable w ->
  StoreCertificate env (Some p) (Some x) w
  = (Done true, after_StoreCertificate k c w).
Proof.
  intros Hall Hp Hr Hx Hkey Hcert.
  destruct w as [? certfile keyfile ? ? ? ? ? fs ro ss hp n ? ? ?].
  simpl in *.
  unfold StoreCertificate. unfold_libraries. rewrite !Hall.
  run_with ltac:(rewrite Hp || rewrite Hr || rewrite Hx
                 || rewrite (bool_decide_eq_false_2 _ Hkey)
                 || rewrite (bool_decide_eq_false_2 _ Hcert)).
  unfold after_StoreCertificate; simpl.
  rewrite !insert_insert_eq, !delete_insert_eq. reflexivity.
Qed.

Arguments GeneratePrivateKey : simpl never.
Arguments CreateCertificate : simpl never.
Arguments StoreCertificate : simpl never.

Lemma not_certificate_present w :
  ~ certificate_present w ->
  loadable_certificate (files w) (ssl_cert_file w) = None.
Proof.
  unfold certificate_present. intros H.
  destruct (loadable_certificate (files w) (ssl_cert_file w)); [|reflexivity].
  exfalso. apply H. eauto.
Qed.

Lemma CreateCertificatesWhenNeeded_generates env w :
  all_succeed env ->
  ~ certificate_present w ->
  CreateCertificatesWhenNeeded env w
  = (certificateWritten <-
       StoreCertificate env (Some (S (next_handle w)))
                            (Some (S (S (S (S (next_handle w)))))) ;;
     if negb certificateWritten
     then (ereport ERROR "error while storing key and certificate" ;; ret false)
     else ret true)%run (after_generation env w).
Proof.
  intros Hall Hno. apply not_certificate_present in Hno.
  destruct w as [? certfile keyfile ? ? ? ? ? fs ro ss hp n ? ? t].
  simpl in *.
  unfold CreateCertificatesWhenNeeded.
  unfold OPENSSL_init_ssl, SSL_CTX_new, new_object, SSL_CTX_use_certificate_chain_file,
    EnsureReleaseOpenSSLResource, MemoryContextRegisterResetCallback, elog.
  unfold ereport at 1 2 3.
  rewrite Hall. run_with ltac:(rewrite Hno).
  rewrite GeneratePrivateKey_ok by exact Hall.
  unfold after_GeneratePrivateKey; simpl.
  rewrite (CreateCertificate_ok env _ (S n) (S (S (S n))) (generated_key env));
    simpl; try assumption; try lia;
    [ | rewrite lookup_insert_eq; reflexivity
      | rewrite lookup_insert_ne by lia; rewrite lookup_insert_eq; reflexivity ].
  reflexivity.
Qed.

Lemma after_generation_key env w :
  heap (after_generation env w) !! S (next_handle w)
    = Some (EVP_PKEY_obj (Some (S (S (S (next_handle w))))))
  /\ heap (after_generation env w) !! S (S (S (next_handle w)))
    = Some (RSA_obj (Some (generated_key env)))
  /\ heap (after_generation env w) !! S (S (S (S (next_handle w))))
    = Some (X509_obj (self_signed_certificate (generated_key env) (now w)))
  /\ ssl_key_file (after_generation env w) = ssl_key_file w
  /\ ssl_cert_file (after_generation env w) = ssl_cert_file w
  /\ unwritable (after_generation env w) = unwritable w.
Proof.
  destruct w as [? certfile keyfile ? ? ? ? ? fs ro ss hp n ? ? t].
  unfold after_generation, after_CreateCertificate, after_GeneratePrivateKey,
    after_probe; simpl.
  repeat split.
  - do 1 (rewrite lookup_insert_ne by lia). rewrite lookup_insert_eq. reflexivity.
  - do 2 (rewrite lookup_insert_ne by lia). rewrite lookup_insert_eq. reflexivity.
  - rewrite lookup_insert_eq. reflexivity.
Qed.

Lemma CreateCertificatesWhenNeeded_created env w :
  all_succeed env ->
  ~ certificate_present w ->
  ssl_key_file w ∉ unwritable w ->
  ssl_cert_file w ∉ unwritable w ->
  CreateCertificatesWhenNeeded env w
  = (Done true, after_CreateCertificatesWhenNeeded env w).
Proof.
  intros Hall Hno Hkey Hcert.
  rewrite CreateCertificatesWhenNeeded_generates by assumption.
  destruct (after_generation_key env w) as (Hp & Hr & Hx & Ek & Ec & Eu).
  rewrite <- Ek, <- Eu in Hkey. rewrite <- Ec, <- Eu in Hcert.
  rewrite (bind_Done _ _ _ _ _ (StoreCertificate_ok env _ _ _ _ _ _ Hall Hp Hr Hx Hkey Hcert)).
  reflexivity.
Qed.

(** ** The decision *)

Lemma ShouldUseAutoSSL_run w :
  ShouldUseAutoSSL w
  = (Done (bool_decide (c_str (node_conninfo_sslmode w) = "require")), w).
Proof.
  unfold ShouldUseAutoSSL, GetConnParam, bind, gets, ret.
  destruct (Z.eqb_spec (strcmp (c_str (node_conninfo_sslmode w)) "require") 0) as [E|E].
  - apply strcmp_0 in E. rewrite c_str_idemp in E.
    rewrite bool_decide_eq_true_2; [reflexivity | exact E].
  - rewrite bool_decide_eq_false_2; [reflexivity |].
    intros E'. apply E. apply strcmp_0. rewrite c_str_idemp. exact E'.
Qed.

Arguments ShouldUseAutoSSL : simpl never.
Arguments CreateCertificatesWhenNeeded : simpl never.

Lemma ParseTreeNode_ENABLE_SSL_QUERY w :
  ParseTreeNode ENABLE_SSL_QUERY w
  = (Done {| setting_name := "ssl"; setting_value := "on" |}, w).
Proof. reflexivity. Qed.

Lemma ParseTreeNode_RESET_CITUS_NODE_CONNINFO w :
  ParseTreeNode RESET_CITUS_NODE_CONNINFO w
  = (Done {| setting_name := "citus.node_conninfo";
             setting_value := "sslmode=prefer" |}, w).
Proof. reflexivity. Qed.

Arguments ParseTreeNode : simpl never.
Arguments ENABLE_SSL_QUERY : simpl never.
Arguments RESET_CITUS_NODE_CONNINFO : simpl never.

(** ** The probe *)

Lemma CreateCertificatesWhenNeeded_present env w c :
  loadable_certificate (files w) (ssl_cert_file w) = Some c ->
  CreateCertificatesWhenNeeded env w
  = (Done false, if fails env at_SSL_CTX_new then w else after_load c w).
Proof.
  intros Hc. destruct w as [? certfile keyfile ? ? ? ? ? fs ro ss hp n ? ? t].
  simpl in *.
  unfold CreateCertificatesWhenNeeded.
  unfold OPENSSL_init_ssl, SSL_CTX_new, new_object, SSL_CTX_use_certificate_chain_file,
    EnsureReleaseOpenSSLResource, MemoryContextRegisterResetCallback, elog, ereport.
  destruct (fails env at_SSL_CTX_new).
  - reflexivity.
  - run_with ltac:(rewrite Hc). unfold after_load; simpl.
    rewrite insert_insert_eq. reflexivity.
Qed.

Lemma CreateCertificatesWhenNeeded_no_context env w :
  fails env at_SSL_CTX_new = true ->
  CreateCertificatesWhenNeeded env w = (Done false, w).
Proof.
  intros Hf. unfold CreateCertificatesWhenNeeded, OPENSSL_init_ssl, SSL_CTX_new, new_object.
  rewrite Hf. reflexivity.
Qed.

(** ** Persistence that cannot open its files *)

Lemma StoreCertificate_key_unwritable env w privateKey certificate :
  ssl_key_file w ∈ unwritable w ->
  StoreCertificate env privateKey certificate w = (Error (open_key_error w), w).
Proof.
  intros Hkey. destruct w as [? certfile keyfile ? ? ? ? ? fs ro ss hp n ? ? t].
  simpl in *. unfold StoreCertificate. unfold_libraries.
  run_with ltac:(rewrite (bool_decide_eq_true_2 _ Hkey)). reflexivity.
Qed.

Lemma StoreCertificate_certificate_unwritable env w p r k certificate :
  heap w !! p = Some (EVP_PKEY_obj (Some r)) ->
  heap w !! r = Some (RSA_obj (Some k)) ->
  ssl_key_file w ∉ unwritable w ->
  ssl_cert_file w ∈ unwritable w ->
  StoreCertificate env (Some p) certificate w
  = (Error (if fails env at_PEM_write_PrivateKey
            then "unable to store private key"
            else open_certificate_error w),
     after_key_written env k w).
Proof.
  intros Hp Hr Hkey Hcert.
  destruct w as [? certfile keyfile ? ? ? ? ? fs ro ss hp n ? ? t].
  simpl in *. unfold StoreCertificate. unfold_libraries.
  unfold after_key_written, key_file_written.
  destruct (fails env at_PEM_write_PrivateKey);
    destruct (fails env at_fclose_privateKeyFile);
    run_with ltac:(rewrite Hp || rewrite Hr
                   || rewrite (bool_decide_eq_false_2 _ Hkey)
                   || rewrite (bool_decide_eq_true_2 _ Hcert));
    rewrite ?insert_insert_eq, ?delete_insert_eq; reflexivity.
Qed.

(** * The claims *)

(** ** C1: skip if present *)

Lemma CreateCertificatesWhenNeeded_Done_true env w w1 :
  all_succeed env ->
  CreateCertificatesWhenNeeded env w = (Done true, w1) ->
  w1 = after_CreateCertificatesWhenNeeded env w.
Proof.
  intros Hall Hrun.
  destruct (loadable_certificate (files w) (ssl_cert_file w)) as [c|] eqn:Hc.
  { rewrite (CreateCertificatesWhenNeeded_present env w c Hc) in Hrun.
    discriminate Hrun. }
  assert (Hno : ~ certificate_present w).
  { unfold certificate_present. rewrite Hc. intros [? ?]. discriminate. }
  destruct (decide (ssl_key_file w ∈ unwritable w)) as [Hkey|Hkey].
  { rewrite CreateCertificatesWhenNeeded_generates in Hrun by assumption.
    destruct (after_generation_key env w) as (_ & _ & _ & Ek & _ & Eu).
    rewrite <- Ek, <- Eu in Hkey.
    rewrite (bind_Error _ _ _ _ _ (StoreCertificate_key_unwritable env _ _ _ Hkey))
      in Hrun.
    discriminate Hrun. }
  destruct (decide (ssl_cert_file w ∈ unwritable w)) as [Hcert|Hcert].
  { rewrite CreateCertificatesWhenNeeded_generates in Hrun by assumption.
    destruct (after_generation_key env w) as (Hp & Hr & _ & Ek & Ec & Eu).
    rewrite <- Ek, <- Eu in Hkey. rewrite <- Ec, <- Eu in Hcert.
    rewrite (bind_Error _ _ _ _ _
               (StoreCertificate_certificate_unwritable env _ _ _ _ _ Hp Hr Hkey Hcert))
      in Hrun.
    discriminate Hrun. }
  rewrite CreateCertificatesWhenNeeded_created in Hrun by assumption.
  congruence.
Qed.

Lemma after_CreateCertificatesWhenNeeded_present env w :
  loadable_certificate (files (after_CreateCertificatesWhenNeeded env w))
                       (ssl_cert_file (after_CreateCertificatesWhenNeeded env w))
  = Some (self_signed_certificate (generated_key env) (now w)).
Proof.
  destruct w as [? certfile keyfile ? ? ? ? ? fs ro ss hp n ? ? t].
  unfold after_CreateCertificatesWhenNeeded, after_StoreCertificate,
    after_generation, after_CreateCertificate, after_GeneratePrivateKey,
    after_probe; simpl.
  unfold loadable_certificate. rewrite lookup_insert_eq. reflexivity.
Qed.

(** C1.  In every world in which the certificate file holds a certificate
    that loads, and in particular in the world a successful first call has
    just left behind, the certificate loads ([c]) and
    [CreateCertificatesWhenNeeded] returns false; it writes no file (the
    file system is unchanged, no stream was opened) and generates neither key
    nor certificate: the only object it may create is the probe context,
    loaded with [c]. *)
Theorem CreateCertificatesWhenNeeded_skip_if_present
    (env : environment) (w : world) :
  certificate_present w \/ after_successful_call w ->
  exists c w',
    loadable_certificate (files w) (ssl_cert_file w) = Some c
    /\ CreateCertificatesWhenNeeded env w = (Done false, w')
    /\ files w' = files w
    /\ streams w' = streams w
    /\ heap w' = (if fails env at_SSL_CTX_new then heap w
                  else <[next_handle w := SSL_CTX_obj (Some c)]> (heap w)).
Proof.
  intros H.
  assert (Hc : exists c, loadable_certificate (files w) (ssl_cert_file w) = Some c).
  { destruct H as [[c Hc] | (env0 & w0 & Hall & Hrun)].
    - exists c. exact Hc.
    - apply CreateCertificatesWhenNeeded_Done_true in Hrun; [|exact Hall].
      subst w. eexists. apply after_CreateCertificatesWhenNeeded_present. }
  destruct Hc as [c Hc]. exists c.
  rewrite (CreateCertificatesWhenNeeded_present env w c Hc).
  eexists. split; [exact Hc|]. split; [reflexivity|].
  destruct w. unfold after_load. simpl.
  destruct (fails env at_SSL_CTX_new); simpl; repeat split.
Qed.

Lemma CreateCertificatesWhenNeeded_skip_if_present_witness :
  exists c w',
    loadable_certificate (files Sample.provisioned_node)
                         (ssl_cert_file Sample.provisioned_node) = Some c
    /\ CreateCertificatesWhenNeeded Sample.healthy Sample.provisioned_node
       = (Done false, w')
    /\ files w' = files Sample.provisioned_node
    /\ streams w' = streams Sample.provisioned_node
    /\ heap w' = <[next_handle Sample.provisioned_node := SSL_CTX_obj (Some c)]>
                   (heap Sample.provisioned_node).
Proof.
  apply (CreateCertificatesWhenNeeded_skip_if_present
           Sample.healthy Sample.provisioned_node).
  right. exists Sample.healthy, Sample.fresh_node. split.
  - intros s. reflexivity.
  - vm_compute. reflexivity.
Defined.

(** ** C2: the decision *)

(** C2.  For every value of the outward-connection security mode, that is
    for every world, [ShouldUseAutoSSL] returns true if and only if the
    string [GetConnParam("sslmode")] hands it is exactly "require", and false
    for every other string ([bool_decide] is true exactly when the equation
    holds); the world is left as it was (no side effect). *)
Theorem ShouldUseAutoSSL_iff_require (w : world) :
  exists sslmode,
    GetConnParam "sslmode" w = (Done sslmode, w)
    /\ ShouldUseAutoSSL w = (Done (bool_decide (sslmode = "require")), w).
Proof.
  exists (c_str (node_conninfo_sslmode w)).
  split; [reflexivity | apply ShouldUseAutoSSL_run].
Qed.

(** ** C3: the bootstrap *)

Lemma citus_setup_ssl_applies env b fcinfo w :
  USE_SSL b = true ->
  100000 <= PG_VERSION_NUM b ->
  bootstrap_applies w ->
  citus_setup_ssl env b fcinfo w
  = (CreateCertificatesWhenNeeded env ;;
     DirectFunctionCall0 pg_reload_conf ;;
     ProcessConfigFile PGC_SIGHUP ;;
     PG_RETURN_NULL fcinfo)%run
      (upd_auto_conf <["ssl" := "on"]>
        (upd_server_log
          (fun l => (l ++ [(LOG, "citus extension created on postgres without ssl enabled, turning it on during creation of the extension")])%list)
          w)).
Proof.
  intros Hssl Hpg [Hoff Hmode]. apply Z.leb_le in Hpg.
  destruct w as [ssl certfile keyfile mode ? ? ? ? fs ro ss hp n ? ? t].
  simpl in *. subst ssl.
  unfold citus_setup_ssl. rewrite Hssl, Hpg. simpl.
  unfold bind at 1. unfold bind at 1. unfold bind at 1. simpl.
  rewrite ShouldUseAutoSSL_run. simpl.
  rewrite (bool_decide_eq_true_2 _ Hmode).
  unfold bind, modify. simpl.
  change (unquote "on") with "on".
  destruct (CreateCertificatesWhenNeeded env _) as [[| |] ?]; reflexivity.
Qed.

Lemma citus_setup_ssl_skips env b fcinfo w :
  USE_SSL b = true ->
  EnableSSL w = true \/ c_str (node_conninfo_sslmode w) <> "require" ->
  citus_setup_ssl env b fcinfo w = (Done (returned_null fcinfo), w).
Proof.
  intros Hssl Hskip.
  destruct w as [ssl certfile keyfile mode ? ? ? ? fs ro ss hp n ? ? t].
  simpl in *.
  unfold citus_setup_ssl. rewrite Hssl. simpl.
  unfold bind at 1. unfold bind at 1. unfold bind at 1. simpl.
  destruct ssl; simpl.
  - reflexivity.
  - destruct Hskip as [Hon|Hmode]; [discriminate|].
    rewrite ShouldUseAutoSSL_run. simpl.
    rewrite (bool_decide_eq_false_2 _ Hmode). reflexivity.
Qed.

Lemma citus_setup_ssl_no_ssl_support env b fcinfo w :
  USE_SSL b = false ->
  citus_setup_ssl env b fcinfo w
  = (Done (returned_null fcinfo),
     upd_server_log
       (fun l => (l ++ [(WARNING, "can not setup ssl on postgres that is not compiled with ssl support")])%list)
       w).
Proof.
  intros Hssl. unfold citus_setup_ssl. rewrite Hssl. reflexivity.
Qed.

Lemma self_signed_certificate_verifies k t :
  key (cert_info (self_signed_certificate k t)) = Some (RSA_public k)
  /\ X509_verify (self_signed_certificate k t) (RSA_public k) = true.
Proof.
  split; [reflexivity|]. unfold X509_verify. simpl.
  apply bool_decide_eq_true. split; reflexivity.
Qed.




(** ** C4: the certificate, and the calls whose status is discarded *)

(** When every call succeeds the certificate is the one of the spec: serial
    1, both times the time of creation, issuer and subject the one entry
    CN = "citus-auto-ssl", the public half of the key, a SHA-256 signature
    by that key. *)
Lemma CreateCertificate_self_signed env w p r k :
  all_succeed env ->
  8 <= rsa_bits k ->
  heap w !! p = Some (EVP_PKEY_obj (Some r)) ->
  heap w !! r = Some (RSA_obj (Some k)) ->
  p ≠ next_handle w -> r ≠ next_handle w ->
  returned_certificate env (Some p) w = Some (self_signed_certificate k (now w)).
Proof.
  intros Hall Hbits Hp Hr Hpn Hrn. unfold returned_certificate.
  rewrite (CreateCertificate_ok env w p r k) by assumption.
  destruct w. unfold after_CreateCertificate. simpl.
  rewrite lookup_insert_eq. reflexivity.
Qed.


(** ** C5: the generated key *)

(** C5.  Whatever the libraries do and whatever the world, a key pair that
    [GeneratePrivateKey] returns is an EVP_PKEY wrapping an RSA key whose
    modulus size is 2048 bits and whose public exponent is 65537: the
    function has no parameter and reads no setting that could change them. *)
Theorem GeneratePrivateKey_RSA_2048_F4
    (env : environment) (w w' : world) (privateKey : ptr) :
  GeneratePrivateKey env w = (Done privateKey, w') ->
  exists p r k,
    privateKey = Some p
    /\ heap w' !! p = Some (EVP_PKEY_obj (Some r))
    /\ heap w' !! r = Some (RSA_obj (Some k))
    /\ rsa_bits k = 2048
    /\ rsa_e k = 65537.
Proof.
  destruct w as [? ? ? ? ? ? ? ? ? ? ? hp n ? ? ?].
  unfold GeneratePrivateKey. unfold_libraries.
  destruct (fails env at_EVP_PKEY_new); [run; discriminate|].
  destruct (fails env at_BN_new); [run; discriminate|].
  destruct (fails env at_BN_set_word); [run; discriminate|].
  destruct (fails env at_RSA_new); [run; discriminate|].
  destruct (fails env at_RSA_generate_key_ex); [run; discriminate|].
  destruct (fails env at_EVP_PKEY_assign_RSA); [run; discriminate|].
  run. intros H. injection H as <- <-. simpl.
  exists n, (S (S n)),
    {| rsa_bits := 2048; rsa_e := RSA_F4; rsa_secret := entropy env |}.
  split; [reflexivity|]. split.
  - rewrite lookup_insert_eq. reflexivity.
  - split; [|split; reflexivity].
    rewrite lookup_insert_ne by lia. rewrite lookup_insert_eq. reflexivity.
Qed.

Lemma GeneratePrivateKey_RSA_2048_F4_witness :
  exists p r k,
    heap (snd (GeneratePrivateKey Sample.healthy Sample.fresh_node)) !! p
      = Some (EVP_PKEY_obj (Some r))
    /\ heap (snd (GeneratePrivateKey Sample.healthy Sample.fresh_node)) !! r
      = Some (RSA_obj (Some k))
    /\ rsa_bits k = 2048
    /\ rsa_e k = 65537.
Proof.
  destruct (GeneratePrivateKey_RSA_2048_F4 Sample.healthy Sample.fresh_node
              (snd (GeneratePrivateKey Sample.healthy Sample.fresh_node))
              (Some 0%nat))
    as (p & r & k & _ & Hp & Hr & Hbits & He).
  - vm_compute. reflexivity.
  - exists p, r, k. repeat split; assumption.
Defined.

(** ** C6: the key is written before the certificate *)

(** C6.  [StoreCertificate], given a key, in a world whose key path can be
    opened for writing and whose certificate path cannot: it raises one of
    the persistence errors, so what would follow the call is not run (the
    caller reports failure, not success); by then the key file has been
    written at its path (it holds the key, or nothing if writing or flushing
    the key itself failed) and nothing else has changed on disk.  When the
    key went through, the error is the one about opening the certificate
    file. *)
Theorem StoreCertificate_key_before_certificate
    (env : environment) (w : world) (p r : handle) (k : RSA_key)
    (certificate : ptr) :
  heap w !! p = Some (EVP_PKEY_obj (Some r)) ->
  heap w !! r = Some (RSA_obj (Some k)) ->
  ssl_key_file w ∉ unwritable w ->
  ssl_cert_file w ∈ unwritable w ->
  exists msg w',
    StoreCertificate env (Some p) certificate w = (Error msg, w')
    /\ CredentialPersistenceFailure w msg
    /\ (forall (A : Type) (rest : bool -> M A),
          (written <- StoreCertificate env (Some p) certificate ;; rest written) w
          = (Error msg, w'))
    /\ files w' = <[ssl_key_file w := key_file_written env k]> (files w)
    /\ files w' !! ssl_cert_file w = files w !! ssl_cert_file w
    /\ (key_file_written env k = [PemPrivateKey k] ->
        msg = open_certificate_error w).
Proof.
  intros Hp Hr Hkey Hcert.
  pose proof (StoreCertificate_certificate_unwritable env w p r k certificate
                Hp Hr Hkey Hcert) as Hrun.
  eexists. eexists. split; [exact Hrun|]. split; [|split; [|split; [|split]]].
  - unfold CredentialPersistenceFailure.
    destruct (fails env at_PEM_write_PrivateKey); auto.
  - intros A rest. apply (bind_Error _ _ _ _ _ Hrun).
  - destruct w. reflexivity.
  - destruct w as [? certfile keyfile ? ? ? ? ? fs ro ss hp n ? ? t].
    simpl in *. apply lookup_insert_ne. intros ->. contradiction.
  - unfold key_file_written.
    destruct (fails env at_PEM_write_PrivateKey); simpl; [discriminate | reflexivity].
Qed.

Lemma StoreCertificate_key_before_certificate_witness :
  let w := after_generation Sample.healthy Sample.read_only_certificate_path in
  exists w',
    StoreCertificate Sample.healthy (Some 1%nat) (Some 4%nat) w
    = (Error "unable to open certificate file 'server.crt' for writing", w')
    /\ files w' !! "server.key" = Some [PemPrivateKey (generated_key Sample.healthy)]
    /\ files w' !! "server.crt" = None.
Proof.
  intros w.
  destruct (StoreCertificate_key_before_certificate Sample.healthy w 1%nat 3%nat
              (generated_key Sample.healthy) (Some 4%nat))
    as (msg & w' & Hrun & _ & _ & Hfiles & Hcert & Hmsg).
  - vm_compute. reflexivity.
  - vm_compute. reflexivity.
  - vm_compute. intros H. discriminate H.
  - vm_compute. reflexivity.
  - exists w'. rewrite (Hmsg eq_refl) in Hrun. split; [exact Hrun|]. split.
    + rewrite Hfiles. vm_compute. reflexivity.
    + change (files w' !! ssl_cert_file w = None). rewrite Hcert.
      vm_compute. reflexivity.
Defined.

(** ** C7: release of the OpenSSL objects *)

(** On the run in which everything succeeds, teardown of the memory context
    releases each of the five objects exactly once and leaves none. *)
Lemma teardown_after_success :
  let w := MemoryContextCallResetCallbacks Sample.provisioned_node in
  heap w = ∅ /\ released w = [0; 1; 3; 2; 4]%nat /\ callbacks w = [].
Proof. repeat split; vm_compute; reflexivity. Qed.

(** C7, where the code departs from it.  The RSA structure that [RSA_new]
    allocates is never registered for release: it is freed only through the
    EVP_PKEY, once that owns it.  When [RSA_generate_key_ex] fails, the run
    ends in the error, the structure (address 3) is live and no callback
    names it; teardown releases the three registered objects and leaves it.
    When [EVP_PKEY_assign_RSA] fails, what is left behind is the structure
    with the generated private key in it. *)
Theorem RSA_structure_is_not_released :
  (exists w',
     CreateCertificatesWhenNeeded (failing [at_RSA_generate_key_ex] 7)
                                  Sample.fresh_node
     = (Error "unable to generate RSA key", w')
     /\ heap w' !! 3%nat = Some (RSA_obj None)
     /\ callbacks w'
        = [(BN_free, Some 2); (EVP_PKEY_free, Some 1); (SSL_CTX_free, Some 0)]%nat
     /\ heap (MemoryContextCallResetCallbacks w') = {[ 3%nat := RSA_obj None ]}
     /\ released (MemoryContextCallResetCallbacks w') = [0; 1; 2]%nat)
  /\
  (exists w',
     CreateCertificatesWhenNeeded (failing [at_EVP_PKEY_assign_RSA] 7)
                                  Sample.fresh_node
     = (Error "unable to assign RSA key to use as private key", w')
     /\ heap (MemoryContextCallResetCallbacks w')
        = {[ 3%nat := RSA_obj (Some (generated_key (failing [at_EVP_PKEY_assign_RSA] 7))) ]}
     /\ released (MemoryContextCallResetCallbacks w') = [0; 1; 2]%nat).
Proof.
  split.
  - eexists. split; [vm_compute; reflexivity|].
    repeat split; vm_compute; reflexivity.
  - eexists. split; [vm_compute; reflexivity|].
    repeat split; vm_compute; reflexivity.
Qed.

(** ** C8: failures and errors *)

(** Where the file tests the status, the failure is raised. *)
Lemma checked_failures_raise :
  forallb (fun s => raises (outcome_of s)) checked_sites = true.
Proof. vm_compute. reflexivity. Qed.


(** ** C9: resetting the connection default *)

(** C9.  [citus_reset_default_for_node_conninfo] persists
    [citus.node_conninfo = 'sslmode=prefer'], asks for exactly one reload of
    the configuration (and reads the configuration file once into the running
    backend), and touches neither files nor OpenSSL objects.  The function
    itself tests nothing: this holds in every world, hence also under the
    precondition under which the upgrade script calls it. *)
Theorem citus_reset_default_for_node_conninfo_resets
    (fcinfo : FunctionCallInfoData) (w : world) :
  exists w',
    citus_reset_default_for_node_conninfo fcinfo w = (Done (returned_null fcinfo), w')
    /\ auto_conf w' = <["citus.node_conninfo" := "sslmode=prefer"]> (auto_conf w)
    /\ reload_requests w' = S (reload_requests w)
    /\ config_file_reads w' = S (config_file_reads w)
    /\ files w' = files w
    /\ streams w' = streams w
    /\ heap w' = heap w
    /\ callbacks w' = callbacks w
    /\ EnableSSL w' = EnableSSL w.
Proof.
  destruct w. eexists. split; [reflexivity|]. simpl. repeat split.
Qed.

(** ** C10: the probe context cannot be allocated *)



(** * Further properties *)

(** ** Frames *)

Lemma memory_frame_refl w : memory_frame w w.
Proof.
  unfold memory_frame, same_settings, same_configuration, only_registers.
  repeat split; try reflexivity; exists []; [reflexivity | symmetry; apply app_nil_r].
Qed.

Lemma memory_frame_trans w1 w2 w3 :
  memory_frame w1 w2 -> memory_frame w2 w3 -> memory_frame w1 w3.
Proof.
  unfold memory_frame, same_settings, same_configuration, only_registers.
  intros ((A1&A2&A3&A4&A5&A6)&(B1&B2&B3)&(C1&(l1&C2)&(g1&C3))&D1&D2)
         ((A1'&A2'&A3'&A4'&A5'&A6')&(B1'&B2'&B3')&(C1'&(l2&C2')&(g2&C3'))&D1'&D2').
  repeat split; try congruence.
  - exists (l2 ++ l1)%list. rewrite C2', C2. apply app_assoc.
  - exists (g1 ++ g2)%list. rewrite C3', C3. symmetry. apply app_assoc.
Qed.

Lemma credentials_frame_refl w : credentials_frame w w.
Proof.
  unfold credentials_frame, same_settings, same_configuration, only_registers,
    only_credential_files.
  repeat split; try reflexivity; exists []; [reflexivity | symmetry; apply app_nil_r].
Qed.

Lemma credentials_frame_trans w1 w2 w3 :
  credentials_frame w1 w2 -> credentials_frame w2 w3 -> credentials_frame w1 w3.
Proof.
  unfold credentials_frame, same_settings, same_configuration, only_registers,
    only_credential_files.
  intros ((A1&A2&A3&A4&A5&A6)&(B1&B2&B3)&(C1&(l1&C2)&(g1&C3))&D1)
         ((A1'&A2'&A3'&A4'&A5'&A6')&(B1'&B2'&B3')&(C1'&(l2&C2')&(g2&C3'))&D1').
  repeat split; try congruence.
  - exists (l2 ++ l1)%list. rewrite C2', C2. apply app_assoc.
  - exists (g1 ++ g2)%list. rewrite C3', C3. symmetry. apply app_assoc.
  - intros path Hpath. rewrite D1'; [apply D1; exact Hpath|].
    rewrite A2, A3, A5. exact Hpath.
Qed.

Lemma memory_frame_credentials_frame w w' :
  memory_frame w w' -> credentials_frame w w'.
Proof.
  unfold memory_frame, credentials_frame, only_credential_files.
  intros (A&B&C&D&_).
  split; [exact A|]. split; [exact B|]. split; [exact C|].
  intros path _. rewrite D. reflexivity.
Qed.

(** ** Rules *)

Section Triples.

Context (F : world -> world -> Prop).
Hypothesis F_refl : forall w, F w w.
Hypothesis F_trans : forall w1 w2 w3, F w1 w2 -> F w2 w3 -> F w1 w3.

Lemma triple_ret {A} (a : A) (D : world -> A -> Prop) E :
  (forall w, D w a) -> triple F (ret a) D E.
Proof. intros Ha w o w' H. injection H as <- <-. split; [apply F_refl | apply Ha]. Qed.

Lemma triple_raise {A} msg (D : world -> A -> Prop) (E : world -> string -> Prop)
    (k : M A) :
  (forall w, E w msg) -> triple F (ereport ERROR msg ;; k) D E.
Proof.
  intros HE w o w' H. unfold bind, ereport in H. injection H as <- <-.
  split; [apply F_refl | apply HE].
Qed.

Lemma triple_bind {A B} (m : M A) (k : A -> M B) (V : A -> Prop)
    (D : world -> B -> Prop) E :
  triple F m (fun _ a => V a) E ->
  (forall a, V a -> triple F (k a) D E) ->
  triple F (x <- m ;; k x) D E.
Proof.
  intros Hm Hk w o w' H. unfold bind in H.
  destruct (m w) as [[a|msg|] w1] eqn:Em.
  - destruct (Hm _ _ _ Em) as [F1 Da].
    destruct (Hk a Da _ _ _ H) as [F2 Q]. split; [eapply F_trans; eassumption | exact Q].
  - injection H as <- <-. exact (Hm _ _ _ Em).
  - injection H as <- <-. exact (Hm _ _ _ Em).
Qed.

Lemma triple_gets {A} (f : world -> A) (D : world -> A -> Prop) E :
  (forall w, D w (f w)) -> triple F (gets f) D E.
Proof. intros Hf w o w' H. injection H as <- <-. split; [apply F_refl | apply Hf]. Qed.

Lemma triple_last {A B} (m : M A) (k : A -> M B) (D' : world -> A -> Prop)
    (D : world -> B -> Prop) E :
  triple F m D' E ->
  (forall w a, D' w a -> exists b, k a w = (Done b, w) /\ D w b) ->
  triple F (x <- m ;; k x) D E.
Proof.
  intros Hm Hk w o w' H. unfold bind in H.
  destruct (m w) as [[a|msg|] w1] eqn:Em.
  - destruct (Hm _ _ _ Em) as [F1 Da].
    destruct (Hk _ _ Da) as (b & Hb & Db). rewrite Hb in H. injection H as <- <-.
    split; assumption.
  - injection H as <- <-. exact (Hm _ _ _ Em).
  - injection H as <- <-. exact (Hm _ _ _ Em).
Qed.

End Triples.

Lemma triple_weaken {A} (F F' : world -> world -> Prop) (m : M A)
    (D D' : world -> A -> Prop) (E E' : world -> string -> Prop) :
  triple F m D E ->
  (forall w w', F w w' -> F' w w') ->
  (forall w a, D w a -> D' w a) ->
  (forall w msg, E w msg -> E' w msg) ->
  triple F' m D' E'.
Proof.
  intros H HF HD HE w o w' Hrun. destruct (H _ _ _ Hrun) as [Hf Q].
  split; [apply HF; exact Hf|]. destruct o; auto.
Qed.

Lemma triple_run {A} (F : world -> world -> Prop) (m : M A)
    (D : world -> A -> Prop) (E : world -> string -> Prop) :
  (forall w, F w (snd (m w))
     /\ match fst (m w) with
        | Done a => D (snd (m w)) a
        | Error msg => E (snd (m w)) msg
        | Crashed => True
        end) ->
  triple F m D E.
Proof.
  intros H w o w' Hrun. specialize (H w). rewrite Hrun in H. exact H.
Qed.

(** ** Case analysis of a run *)

Ltac case_step :=
  match goal with
  | |- context [match ?x with _ => _ end] =>
      lazymatch x with
      | context [match _ with _ => _ end] => fail
      | _ => destruct x eqn:?
      end
  end.

Ltac case_run := repeat (run; rewrite ?orb_false_r; try case_step).

Ltac extend_list :=
  first [ exists []; reflexivity
        | exists []; symmetry; apply app_nil_r
        | eexists; reflexivity
        | eexists (_ :: nil); reflexivity
        | eexists (_ :: _ :: nil); reflexivity ].

Ltac files_frame :=
  intros path Hpath;
  repeat match goal with
         | H : bool_decide _ = false |- _ => apply bool_decide_eq_false in H
         | H : bool_decide _ = true |- _ => apply bool_decide_eq_true in H
         end;
  destruct Hpath as [[? ?]|[?|?]];
  rewrite ?lookup_insert_ne by (try congruence; intros ->; contradiction);
  try reflexivity; try contradiction.

Ltac frame :=
  unfold credentials_frame, memory_frame, same_settings, same_configuration,
    only_registers, only_credential_files;
  simpl; repeat split; try reflexivity; try extend_list; try files_frame.

Ltac cases_of_run :=
  apply triple_run; intros [];
  unfold_libraries;
  case_run.

Ltac primitive :=
  cases_of_run;
  (split; [frame | try exact I; try reflexivity; try discriminate; try (simpl; tauto)]).

(** ** The library calls *)

Lemma new_object_triple env s obj :
  triple memory_frame (new_object env s obj) anything no_error.
Proof. primitive. Qed.

Lemma SSL_CTX_use_certificate_chain_file_triple ctx path :
  triple memory_frame (SSL_CTX_use_certificate_chain_file ctx path) anything no_error.
Proof. primitive. Qed.

Lemma ASN1_INTEGER_set_triple env a v :
  triple memory_frame (ASN1_INTEGER_set env a v) anything no_error.
Proof. primitive. Qed.

Lemma X509_gmtime_adj_triple env s adj :
  triple memory_frame (X509_gmtime_adj env s adj) anything no_error.
Proof. primitive. Qed.

Lemma X509_set_pubkey_triple env x pkey :
  triple memory_frame (X509_set_pubkey env x pkey) anything no_error.
Proof. primitive. Qed.

Lemma X509_NAME_add_entry_by_txt_triple env name field type bytes len loc set :
  triple memory_frame
    (X509_NAME_add_entry_by_txt env name field type bytes len loc set)
    anything no_error.
Proof. primitive. Qed.

Lemma X509_set_issuer_name_triple env x name :
  triple memory_frame (X509_set_issuer_name env x name) anything no_error.
Proof. primitive. Qed.

Lemma EnsureReleaseOpenSSLResource_triple free arg :
  triple memory_frame (EnsureReleaseOpenSSLResource free arg) anything no_error.
Proof. primitive. Qed.

Lemma elog_LOG_triple msg :
  triple memory_frame (elog LOG msg) anything no_error.
Proof. primitive. Qed.

(** ** The steps *)

Lemma GeneratePrivateKey_triple env :
  triple memory_frame (GeneratePrivateKey env)
    (fun _ privateKey => privateKey <> NULL)
    (fun _ msg => In msg GeneratePrivateKey_errors).
Proof. unfold GeneratePrivateKey. primitive. Qed.

Lemma StoreCertificate_triple env privateKey certificate :
  triple credentials_frame (StoreCertificate env privateKey certificate)
    (fun w' written =>
       written = true
       /\ (ssl_key_file w' ∉ unwritable w') /\ (ssl_cert_file w' ∉ unwritable w'))
    CredentialPersistenceFailure.
Proof.
  unfold StoreCertificate. cases_of_run.
  all: split; [frame|].
  all: try exact I.
  all: unfold CredentialPersistenceFailure, open_key_error, open_certificate_error;
       simpl; auto.
  all: repeat match goal with
         | H : bool_decide _ = false |- _ => apply bool_decide_eq_false in H
         end; auto.
Qed.

Lemma X509_sign_triple env x privateKey :
  triple memory_frame
    (signed <- X509_sign env x privateKey EVP_sha256 ;;
     if signed =? 0
     then (ereport ERROR "unable to create signature for the x509 certificate" ;;
           ret NULL)
     else ret (Some x))
    (fun w' certificate =>
       exists c, certificate = Some x /\ heap w' !! x = Some (X509_obj c)
                 /\ signed_with privateKey w' c)
    (fun _ msg => In msg CreateCertificate_errors).
Proof.
  cases_of_run.
  all: split; [frame|].
  all: try exact I; try (simpl; tauto).
  eexists. split; [reflexivity|]. split; [reflexivity|].
  unfold signed_with. eexists _, _. split; [reflexivity|]. split; [|reflexivity].
  assert (n <> x) by congruence. assert (n0 <> x) by congruence.
  unfold key_of.
  run_with ltac:(first [ rewrite lookup_insert_ne by congruence
                       | rewrite Heqo2 | rewrite Heqo5 ]).
  reflexivity.
Qed.

Lemma CreateCertificate_triple env privateKey :
  triple memory_frame (CreateCertificate env privateKey)
    (fun w' certificate =>
       exists x c, certificate = Some x /\ heap w' !! x = Some (X509_obj c)
                   /\ signed_with privateKey w' c)
    (fun _ msg => In msg CreateCertificate_errors).
Proof.
  unfold CreateCertificate.
  pose proof memory_frame_refl as R. pose proof memory_frame_trans as T.
  apply (triple_bind _ T) with (V := fun _ => True);
    [eapply triple_weaken; [apply new_object_triple|..]; simpl; auto; contradiction|].
  intros [x|] _; [|apply (triple_raise _ R); simpl; tauto].
  repeat (apply (triple_bind _ T) with (V := fun _ => True);
    [eapply triple_weaken;
       [first [ apply EnsureReleaseOpenSSLResource_triple
              | apply ASN1_INTEGER_set_triple
              | apply X509_gmtime_adj_triple
              | apply X509_set_pubkey_triple
              | apply X509_NAME_add_entry_by_txt_triple
              | apply X509_set_issuer_name_triple ]|..];
     simpl; auto; contradiction
    | intros _ _]).
  eapply triple_weaken; [apply X509_sign_triple|..]; auto.
  intros w a (c & -> & Hc & Hs). eauto.
Qed.

(** ** The creation of the credentials *)

Lemma generate_and_store_triple env :
  triple credentials_frame (generate_and_store env)
    (fun w' created =>
       created = true
       /\ (ssl_key_file w' ∉ unwritable w') /\ (ssl_cert_file w' ∉ unwritable w'))
    step_error.
Proof.
  pose proof credentials_frame_trans as T.
  pose proof memory_frame_credentials_frame as L.
  apply (triple_bind _ T) with (V := fun privateKey => privateKey <> NULL);
    [eapply triple_weaken; [apply GeneratePrivateKey_triple|..];
     unfold step_error; simpl; auto|].
  intros [p|] Hp; [clear Hp; cbn [is_null] | contradiction].
  apply (triple_bind _ T) with (V := fun certificate => certificate <> NULL);
    [eapply triple_weaken; [apply CreateCertificate_triple|..];
     unfold step_error; simpl; auto;
     intros _ ? (x & c & -> & _); discriminate|].
  intros [x|] Hx; [clear Hx; cbn [is_null] | contradiction].
  eapply triple_last;
    [eapply triple_weaken; [apply StoreCertificate_triple|..];
     [auto | intros w a H; exact H | unfold step_error; auto]|].
  intros w written (-> & Hk & Hc). exists true. simpl. auto.
Qed.

Lemma CreateCertificatesWhenNeeded_triple env :
  triple credentials_frame (CreateCertificatesWhenNeeded env)
    (fun w' created =>
       created = true ->
       (ssl_key_file w' ∉ unwritable w') /\ (ssl_cert_file w' ∉ unwritable w'))
    step_error.
Proof.
  unfold CreateCertificatesWhenNeeded, OPENSSL_init_ssl, SSL_CTX_new.
  pose proof credentials_frame_refl as R. pose proof credentials_frame_trans as T.
  pose proof memory_frame_credentials_frame as L.
  apply (triple_bind _ T) with (V := fun _ => True);
    [apply (triple_ret _ R); trivial | intros _ _].
  apply (triple_bind _ T) with (V := fun _ => True);
    [eapply triple_weaken; [apply new_object_triple|..]; simpl; auto; contradiction|].
  intros [ctx|] _; cbn [is_null]; [|apply (triple_ret _ R); discriminate].
  apply (triple_bind _ T) with (V := fun _ => True);
    [eapply triple_weaken; [apply EnsureReleaseOpenSSLResource_triple|..];
     simpl; auto; contradiction | intros _ _].
  apply (triple_bind _ T) with (V := fun _ => True);
    [apply (triple_gets _ R); trivial | intros certfile _].
  apply (triple_bind _ T) with (V := fun _ => True);
    [eapply triple_weaken; [apply SSL_CTX_use_certificate_chain_file_triple|..];
     simpl; auto; contradiction | intros loaded _].
  destruct (loaded =? 1); [apply (triple_ret _ R); discriminate|].
  apply (triple_bind _ T) with (V := fun _ => True);
    [eapply triple_weaken; [apply elog_LOG_triple|..];
     simpl; auto; contradiction | intros _ _].
  eapply triple_weaken; [apply generate_and_store_triple|..]; auto.
  intros w a (_ & H) _. exact H.
Qed.

Lemma CreateCertificatesWhenNeeded_absent env w :
  fails env at_SSL_CTX_new = false ->
  loadable_certificate (files w) (ssl_cert_file w) = None ->
  CreateCertificatesWhenNeeded env w = generate_and_store env (after_probe w).
Proof.
  intros Hctx Hno. destruct w as [? certfile keyfile ? ? ? ? ? fs ro ss hp n ? ? t].
  simpl in *.
  unfold CreateCertificatesWhenNeeded.
  unfold OPENSSL_init_ssl, SSL_CTX_new, new_object, SSL_CTX_use_certificate_chain_file,
    EnsureReleaseOpenSSLResource, MemoryContextRegisterResetCallback, elog.
  unfold ereport at 1.
  rewrite Hctx. run_with ltac:(rewrite Hno). reflexivity.
Qed.

Lemma after_probe_frame w : memory_frame w (after_probe w).
Proof. destruct w. unfold after_probe. frame. Qed.

Lemma CredentialPersistenceFailure_settings w w' msg :
  same_settings w w' ->
  CredentialPersistenceFailure w' msg -> CredentialPersistenceFailure w msg.
Proof.
  intros (_ & Hc & Hk & _).
  unfold CredentialPersistenceFailure, open_key_error, open_certificate_error.
  rewrite Hc, Hk. trivial.
Qed.

Lemma step_error_settings w w' msg :
  same_settings w w' -> step_error w' msg -> step_error w msg.
Proof.
  intros Hs [H|[H|H]]; unfold step_error; auto.
  right. right. eapply CredentialPersistenceFailure_settings; eassumption.
Qed.

Lemma step_error_specific w msg :
  step_error w msg -> ~ In msg CreateCertificatesWhenNeeded_errors.
Proof.
  unfold step_error, CredentialPersistenceFailure, open_key_error, open_certificate_error.
  intros H Hin. simpl in Hin.
  destruct Hin as [<-|[<-|[<-|[]]]]; simpl in H;
    repeat match goal with
           | H : _ \/ _ |- _ => destruct H as [H|H]
           | H : False |- _ => destruct H
           | H : _ = _ |- _ => discriminate H
           end.
Qed.

(** ** What the creation of the credentials leaves alone *)

(** Whatever the libraries do and however the run ends,
    [CreateCertificatesWhenNeeded] leaves the settings, the stored
    configuration, the reload requests and the clock as they were; it
    releases nothing, only registers callbacks and only appends to the log;
    and a file is changed only if it is the key file or the certificate
    file, can be opened for writing, and the key file can be. *)
Theorem CreateCertificatesWhenNeeded_frame (env : environment) (w : world) :
  credentials_frame w (snd (CreateCertificatesWhenNeeded env w)).
Proof.
  destruct (CreateCertificatesWhenNeeded env w) as [o w'] eqn:E.
  exact (proj1 (CreateCertificatesWhenNeeded_triple env _ _ _ E)).
Qed.

(** ** The errors of the creation of the credentials *)

(** Every error [CreateCertificatesWhenNeeded] ends in is the error of the
    step that failed: one of [GeneratePrivateKey], of [CreateCertificate] or
    of [StoreCertificate].  Its own three reports, for a step that returns
    NULL or false, are never raised: no step returns that. *)
Theorem CreateCertificatesWhenNeeded_raises_step_errors
    (env : environment) (w : world) (msg : string) (w' : world) :
  CreateCertificatesWhenNeeded env w = (Error msg, w') ->
  step_error w msg /\ ~ In msg CreateCertificatesWhenNeeded_errors.
Proof.
  intros E. destruct (CreateCertificatesWhenNeeded_triple env _ _ _ E) as [Hf He].
  assert (Hs : step_error w msg).
  { eapply step_error_settings; [exact (proj1 Hf) | exact He]. }
  split; [exact Hs | eapply step_error_specific; exact Hs].
Qed.

Lemma CreateCertificatesWhenNeeded_raises_step_errors_witness :
  step_error Sample.fresh_node "unable to create signature for the x509 certificate"
  /\ ~ In "unable to create signature for the x509 certificate"
          CreateCertificatesWhenNeeded_errors.
Proof.
  apply (CreateCertificatesWhenNeeded_raises_step_errors
           (failing [at_X509_sign] 7) Sample.fresh_node _
           (snd (CreateCertificatesWhenNeeded (failing [at_X509_sign] 7)
                                              Sample.fresh_node))).
  vm_compute. reflexivity.
Defined.

(** ** What the result of the creation of the credentials says *)

Lemma generate_and_store_true env w :
  fst (generate_and_store env w) <> Done false.
Proof.
  destruct (generate_and_store env w) as [o w'] eqn:E.
  destruct (generate_and_store_triple env _ _ _ E) as [_ D].
  simpl. intros ->. destruct D as [D _]. discriminate D.
Qed.

(** [CreateCertificatesWhenNeeded] returns false in exactly two cases: the
    probe context could not be allocated, or the certificate file holds a
    certificate that loads. *)
Theorem CreateCertificatesWhenNeeded_false_iff (env : environment) (w : world) :
  fst (CreateCertificatesWhenNeeded env w) = Done false
  <-> fails env at_SSL_CTX_new = true \/ certificate_present w.
Proof.
  split.
  - intros H. destruct (fails env at_SSL_CTX_new) eqn:Hctx; [left; reflexivity|].
    destruct (loadable_certificate (files w) (ssl_cert_file w)) as [c|] eqn:Hc.
    + right. exists c. exact Hc.
    + exfalso. rewrite (CreateCertificatesWhenNeeded_absent env w Hctx Hc) in H.
      exact (generate_and_store_true env _ H).
  - intros [Hctx|[c Hc]].
    + rewrite (CreateCertificatesWhenNeeded_no_context env w Hctx). reflexivity.
    + rewrite (CreateCertificatesWhenNeeded_present env w c Hc). reflexivity.
Qed.

(** When [CreateCertificatesWhenNeeded] returns true, the probe context was
    allocated, no certificate could be loaded, and both the key file and the
    certificate file could be opened for writing. *)
Theorem CreateCertificatesWhenNeeded_true_only_if
    (env : environment) (w w' : world) :
  CreateCertificatesWhenNeeded env w = (Done true, w') ->
  fails env at_SSL_CTX_new = false
  /\ ~ certificate_present w
  /\ (ssl_key_file w ∉ unwritable w)
  /\ (ssl_cert_file w ∉ unwritable w).
Proof.
  intros E.
  destruct (CreateCertificatesWhenNeeded_triple env _ _ _ E)
    as [((_ & Hc & Hk & _ & Hu & _) & _) D].
  destruct (D eq_refl) as [Dk Dc]. rewrite Hk, Hu in Dk. rewrite Hc, Hu in Dc.
  split; [|split; [|split; assumption]].
  - destruct (fails env at_SSL_CTX_new) eqn:Hctx; [|reflexivity].
    rewrite (CreateCertificatesWhenNeeded_no_context env w Hctx) in E. discriminate E.
  - intros [c Hp].
    rewrite (CreateCertificatesWhenNeeded_present env w c Hp) in E. discriminate E.
Qed.

Lemma CreateCertificatesWhenNeeded_true_only_if_witness :
  fails Sample.healthy at_SSL_CTX_new = false
  /\ ~ certificate_present Sample.fresh_node
  /\ (ssl_key_file Sample.fresh_node ∉ unwritable Sample.fresh_node)
  /\ (ssl_cert_file Sample.fresh_node ∉ unwritable Sample.fresh_node).
Proof.
  apply (CreateCertificatesWhenNeeded_true_only_if Sample.healthy Sample.fresh_node
           (snd (CreateCertificatesWhenNeeded Sample.healthy Sample.fresh_node))).
  vm_compute. reflexivity.
Defined.

(** ** The steps, one by one *)

(** The outcome of [GeneratePrivateKey] is decided by the first call that
    fails, in the order of the calls: a failed [EVP_PKEY_new],
    [BN_set_word], [RSA_generate_key_ex] or [EVP_PKEY_assign_RSA] raises its
    error; a failed [BN_new] or [RSA_new] is not tested and the NULL pointer
    is used; when none fails the fresh EVP_PKEY is returned. *)
Theorem GeneratePrivateKey_outcome (env : environment) (w : world) :
  fst (GeneratePrivateKey env w)
  = if fails env at_EVP_PKEY_new
    then Error "unable to allocate space for private key"
    else if fails env at_BN_new then Crashed
    else if fails env at_BN_set_word
    then Error "unable to prepare exponent for RSA algorithm"
    else if fails env at_RSA_new then Crashed
    else if fails env at_RSA_generate_key_ex
    then Error "unable to generate RSA key"
    else if fails env at_EVP_PKEY_assign_RSA
    then Error "unable to assign RSA key to use as private key"
    else Done (Some (next_handle w)).
Proof.
  destruct w as [? ? ? ? ? ? ? ? ? ? ? hp n ? ? ?].
  unfold GeneratePrivateKey. unfold_libraries.
  destruct (fails env at_EVP_PKEY_new); [reflexivity|].
  destruct (fails env at_BN_new); [reflexivity|].
  destruct (fails env at_BN_set_word); [run; reflexivity|].
  destruct (fails env at_RSA_new); [run; reflexivity|].
  destruct (fails env at_RSA_generate_key_ex); [run; reflexivity|].
  destruct (fails env at_EVP_PKEY_assign_RSA); run; reflexivity.
Qed.

(** [GeneratePrivateKey] and [CreateCertificate] work on OpenSSL objects
    only: whatever the libraries do and however the run ends, files, streams,
    settings, stored configuration and clock are what they were, nothing is
    released, callbacks are only registered and the log only grows. *)
Theorem generation_in_memory_only
    (env : environment) (privateKey : ptr) (w : world) :
  memory_frame w (snd (GeneratePrivateKey env w))
  /\ memory_frame w (snd (CreateCertificate env privateKey w)).
Proof.
  split.
  - destruct (GeneratePrivateKey env w) as [o w'] eqn:E.
    exact (proj1 (GeneratePrivateKey_triple env _ _ _ E)).
  - destruct (CreateCertificate env privateKey w) as [o w'] eqn:E.
    exact (proj1 (CreateCertificate_triple env privateKey _ _ _ E)).
Qed.



(** [StoreCertificate] never returns false: it returns true, and then both
    files could be opened, or it ends in one of its four errors.  Whatever
    the libraries do, it changes no file but the key file and the
    certificate file, and none that cannot be opened for writing. *)
Theorem StoreCertificate_true_or_raises
    (env : environment) (privateKey certificate : ptr)
    (w : world) (o : outcome bool) (w' : world) :
  StoreCertificate env privateKey certificate w = (o, w') ->
  credentials_frame w w'
  /\ o <> Done false
  /\ (o = Done true ->
      (ssl_key_file w ∉ unwritable w) /\ (ssl_cert_file w ∉ unwritable w))
  /\ (forall msg, o = Error msg -> CredentialPersistenceFailure w msg).
Proof.
  intros E.
  destruct (StoreCertificate_triple env privateKey certificate _ _ _ E) as [Hf Q].
  split; [exact Hf|]. destruct Hf as (Hs & _).
  split; [|split].
  - intros ->. destruct Q as [Q _]. discriminate Q.
  - intros ->. destruct Q as (_ & Hk & Hc).
    destruct Hs as (_ & Ec & Ek & _ & Eu & _).
    rewrite Ek, Eu in Hk. rewrite Ec, Eu in Hc. split; assumption.
  - intros msg ->. eapply CredentialPersistenceFailure_settings; eassumption.
Qed.

Lemma StoreCertificate_true_or_raises_witness :
  let w := after_generation Sample.healthy Sample.read_only_certificate_path in
  let r := StoreCertificate Sample.healthy (Some 1%nat) (Some 4%nat) w in
  credentials_frame w (snd r)
  /\ fst r <> Done false
  /\ (fst r = Done true ->
      (ssl_key_file w ∉ unwritable w) /\ (ssl_cert_file w ∉ unwritable w))
  /\ (forall msg, fst r = Error msg -> CredentialPersistenceFailure w msg).
Proof.
  apply (StoreCertificate_true_or_raises Sample.healthy (Some 1%nat) (Some 4%nat)).
  vm_compute. reflexivity.
Defined.

(** ** The entry point *)

Lemma citus_setup_ssl_bootstraps env b fcinfo w :
  USE_SSL b = true ->
  bootstrap_applies w ->
  citus_setup_ssl env b fcinfo w
  = match CreateCertificatesWhenNeeded env (after_ssl_on w) with
    | (Done _, w2) =>
        (Done (returned_null fcinfo),
         if 100000 <=? PG_VERSION_NUM b
         then after_reload w2 else after_restart_warning w2)
    | (Error msg, w2) => (Error msg, w2)
    | (Crashed, w2) => (Crashed, w2)
    end.
Proof.
  intros Hssl [Hoff Hmode].
  destruct w as [ssl certfile keyfile mode ? ? ? ? fs ro ss hp n ? ? t].
  simpl in *. subst ssl.
  unfold citus_setup_ssl. rewrite Hssl. simpl.
  unfold bind at 1. unfold bind at 1. unfold bind at 1. simpl.
  rewrite ShouldUseAutoSSL_run. simpl.
  rewrite (bool_decide_eq_true_2 _ Hmode).
  unfold bind, modify. simpl.
  change (unquote "on") with "on".
  unfold after_ssl_on. simpl.
  destruct (CreateCertificatesWhenNeeded env _) as [[| |] ?];
    destruct (100000 <=? PG_VERSION_NUM b); reflexivity.
Qed.

Lemma citus_setup_ssl_cases env b fcinfo w :
  (USE_SSL b = false
   /\ citus_setup_ssl env b fcinfo w
      = (Done (returned_null fcinfo),
         upd_server_log
           (fun l => (l ++ [(WARNING, "can not setup ssl on postgres that is not compiled with ssl support")])%list)
           w))
  \/ (USE_SSL b = true /\ ~ bootstrap_applies w
      /\ citus_setup_ssl env b fcinfo w = (Done (returned_null fcinfo), w))
  \/ (USE_SSL b = true /\ bootstrap_applies w).
Proof.
  destruct (USE_SSL b) eqn:Hssl.
  - right. destruct (EnableSSL w) eqn:Hon.
    + left. split; [reflexivity|]. split.
      * intros [Hoff _]. congruence.
      * apply citus_setup_ssl_skips; auto.
    + destruct (decide (c_str (node_conninfo_sslmode w) = "require")) as [Hm|Hm].
      * right. split; [reflexivity|]. split; assumption.
      * left. split; [reflexivity|]. split.
        -- intros [_ Hm']. contradiction.
        -- apply citus_setup_ssl_skips; auto.
  - left. split; [reflexivity|]. apply citus_setup_ssl_no_ssl_support. exact Hssl.
Qed.

Lemma after_ssl_on_frame w w2 :
  credentials_frame (after_ssl_on w) w2 ->
  same_settings w w2 /\ only_registers w w2 /\ only_credential_files w w2
  /\ auto_conf w2 = <["ssl" := "on"]> (auto_conf w)
  /\ reload_requests w2 = reload_requests w
  /\ config_file_reads w2 = config_file_reads w.
Proof.
  destruct w. unfold after_ssl_on, credentials_frame, same_settings,
    same_configuration, only_registers, only_credential_files. simpl.
  intros (A & (B1 & B2 & B3) & (C1 & C2 & (logged & C3)) & D).
  split; [exact A|]. split; [|split; [exact D|]; split; [exact B1|]; split; assumption].
  split; [exact C1|]. split; [exact C2|].
  eexists. rewrite C3. rewrite <- app_assoc. reflexivity.
Qed.



(** When [citus_setup_ssl] ends in an error, the node is left half
    configured: the error is that of a step of the creation of the
    credentials, [ssl = on] has already been persisted, and no reload has
    been requested. *)
Theorem citus_setup_ssl_error_after_ssl_on
    (env : environment) (b : build) (fcinfo : FunctionCallInfoData)
    (w : world) (msg : string) (w' : world) :
  citus_setup_ssl env b fcinfo w = (Error msg, w') ->
  USE_SSL b = true /\ bootstrap_applies w /\ step_error w msg
  /\ auto_conf w' = <["ssl" := "on"]> (auto_conf w)
  /\ reload_requests w' = reload_requests w
  /\ config_file_reads w' = config_file_reads w.
Proof.
  intros E.
  destruct (citus_setup_ssl_cases env b fcinfo w)
    as [[_ H]|[(_ & _ & H)|[Hssl Happ]]];
    [rewrite H in E; discriminate E | rewrite H in E; discriminate E |].
  rewrite (citus_setup_ssl_bootstraps env b fcinfo w Hssl Happ) in E.
  destruct (CreateCertificatesWhenNeeded env (after_ssl_on w)) as [o2 w2] eqn:E2.
  destruct (CreateCertificatesWhenNeeded_triple env _ _ _ E2) as [Hf He].
  apply after_ssl_on_frame in Hf.
  destruct Hf as (A & _ & _ & Hconf & Hrel & Hread).
  destruct o2 as [created|msg2|]; try discriminate E.
  injection E as <- <-.
  repeat split; try assumption; try apply Happ.
  eapply step_error_settings; eassumption.
Qed.

Lemma citus_setup_ssl_error_after_ssl_on_witness :
  let w := Sample.read_only_certificate_path in
  let r := citus_setup_ssl Sample.healthy Sample.pg11 Sample.fcinfo0 w in
  USE_SSL Sample.pg11 = true /\ bootstrap_applies w
  /\ step_error w "unable to open certificate file 'server.crt' for writing"
  /\ auto_conf (snd r) = <["ssl" := "on"]> (auto_conf w)
  /\ reload_requests (snd r) = reload_requests w
  /\ config_file_reads (snd r) = config_file_reads w.
Proof.
  apply (citus_setup_ssl_error_after_ssl_on Sample.healthy Sample.pg11 Sample.fcinfo0).
  vm_compute. reflexivity.
Defined.

(** When [citus_setup_ssl] acts and returns, [ssl = on] is persisted and,
    from PostgreSQL 10 on, exactly one reload has been requested and the
    configuration file read once; before PostgreSQL 10 no reload is
    requested and the last entry of the log is the warning that a restart is
    required.  This holds whatever the libraries do. *)
Theorem citus_setup_ssl_reload_or_warning
    (env : environment) (b : build) (fcinfo : FunctionCallInfoData)
    (w : world) (r : Datum * FunctionCallInfoData) (w' : world) :
  USE_SSL b = true ->
  bootstrap_applies w ->
  citus_setup_ssl env b fcinfo w = (Done r, w') ->
  auto_conf w' = <["ssl" := "on"]> (auto_conf w)
  /\ if 100000 <=? PG_VERSION_NUM b
     then reload_requests w' = S (reload_requests w)
          /\ config_file_reads w' = S (config_file_reads w)
     else reload_requests w' = reload_requests w
          /\ config_file_reads w' = config_file_reads w
          /\ exists l, server_log w'
                       = (l ++ [(WARNING, "restart of postgres required")])%list.
Proof.
  intros Hssl Happ E.
  rewrite (citus_setup_ssl_bootstraps env b fcinfo w Hssl Happ) in E.
  destruct (CreateCertificatesWhenNeeded env (after_ssl_on w)) as [o2 w2] eqn:E2.
  destruct (CreateCertificatesWhenNeeded_triple env _ _ _ E2) as [Hf _].
  apply after_ssl_on_frame in Hf.
  destruct Hf as (_ & _ & _ & Hconf & Hrel & Hread).
  destruct o2 as [created|msg2|]; try discriminate E.
  injection E as _ <-. destruct w2. simpl in *.
  destruct (100000 <=? PG_VERSION_NUM b); simpl.
  - repeat split; congruence.
  - repeat split; try congruence. eexists. reflexivity.
Qed.

Lemma citus_setup_ssl_reload_or_warning_witness :
  let w := Sample.fresh_node in
  let r := citus_setup_ssl Sample.healthy Sample.pg96 Sample.fcinfo0 w in
  auto_conf (snd r) = <["ssl" := "on"]> (auto_conf w)
  /\ reload_requests (snd r) = reload_requests w
  /\ config_file_reads (snd r) = config_file_reads w
  /\ exists l, server_log (snd r)
               = (l ++ [(WARNING, "restart of postgres required")])%list.
Proof.
  apply (citus_setup_ssl_reload_or_warning Sample.healthy Sample.pg96 Sample.fcinfo0
           Sample.fresh_node (returned_null Sample.fcinfo0)).
  - reflexivity.
  - split; reflexivity.
  - vm_compute. reflexivity.
Defined.

(** ** Release of the objects of a successful run *)

Lemma call_free_release f h w :
  f <> EVP_PKEY_free -> call_free f (Some h) w = release h w.
Proof. intros Hf. destruct f; try reflexivity. contradiction. Qed.

Lemma call_free_EVP_PKEY h r w :
  heap w !! h = Some (EVP_PKEY_obj (Some r)) ->
  call_free EVP_PKEY_free (Some h) w = release h (release r w).
Proof. intros H. unfold call_free. rewrite H. reflexivity. Qed.

Lemma heap_release h w : heap (release h w) = delete h (heap w).
Proof. destruct w. reflexivity. Qed.

Lemma released_release h w : released (release h w) = h :: released w.
Proof. destruct w. reflexivity. Qed.

Lemma callbacks_release h w : callbacks (release h w) = callbacks w.
Proof. destruct w. reflexivity. Qed.

Lemma after_CreateCertificatesWhenNeeded_memory env w :
  let n := next_handle w in
  let w' := upd_callbacks (fun _ => []) (after_CreateCertificatesWhenNeeded env w) in
  callbacks (after_CreateCertificatesWhenNeeded env w)
  = (X509_free, Some (S (S (S (S n))))) :: (BN_free, Some (S (S n)))
    :: (EVP_PKEY_free, Some (S n)) :: (SSL_CTX_free, Some n) :: callbacks w
  /\ callbacks w' = []
  /\ released w' = released w
  /\ heap w'
     = <[S (S (S (S n))) := X509_obj (self_signed_certificate (generated_key env) (now w))]>
         (<[S n := EVP_PKEY_obj (Some (S (S (S n))))]>
            (<[S (S (S n)) := RSA_obj (Some (generated_key env))]>
               (<[S (S n) := BIGNUM_obj RSA_F4]>
                  (<[n := SSL_CTX_obj None]> (heap w))))).
Proof. destruct w. repeat split. Qed.

Lemma teardown_of_four x b p r c cbs w0 :
  heap w0 !! p = Some (EVP_PKEY_obj (Some r)) ->
  p <> x -> p <> b ->
  fold_left (fun w cb => call_free (fst cb) (snd cb) w)
    ((X509_free, Some x) :: (BN_free, Some b) :: (EVP_PKEY_free, Some p)
     :: (SSL_CTX_free, Some c) :: cbs) w0
  = fold_left (fun w cb => call_free (fst cb) (snd cb) w) cbs
      (release c (release p (release r (release b (release x w0))))).
Proof.
  intros Hp Hx Hb. cbn [fold_left fst snd].
  rewrite (call_free_release X509_free x w0) by discriminate.
  rewrite (call_free_release BN_free b) by discriminate.
  rewrite (call_free_EVP_PKEY p r).
  2:{ rewrite !heap_release.
      do 2 (rewrite lookup_delete_ne by congruence). exact Hp. }
  rewrite (call_free_release SSL_CTX_free c) by discriminate.
  reflexivity.
Qed.

Lemma teardown_after_CreateCertificatesWhenNeeded env w :
  let n := next_handle w in
  MemoryContextCallResetCallbacks (after_CreateCertificatesWhenNeeded env w)
  = fold_left (fun w cb => call_free (fst cb) (snd cb) w) (callbacks w)
      (release n
         (release (S n)
            (release (S (S (S n)))
               (release (S (S n))
                  (release (S (S (S (S n))))
                     (upd_callbacks (fun _ => [])
                        (after_CreateCertificatesWhenNeeded env w))))))).
Proof.
  intros n.
  destruct (after_CreateCertificatesWhenNeeded_memory env w) as (Hcb & _ & _ & Hheap).
  fold n in Hcb, Hheap.
  unfold MemoryContextCallResetCallbacks.
  rewrite Hcb.
  apply teardown_of_four; [|lia|lia].
  rewrite Hheap. rewrite lookup_insert_ne by lia. apply lookup_insert_eq.
Qed.

(** After a run of [CreateCertificatesWhenNeeded] in which every call
    succeeded, teardown of the memory context first runs the four callbacks
    the run registered: they release the five objects of the run, each once
    (the RSA structure through the EVP_PKEY that owns it), and leave the
    rest of the heap as it was before the run; the callbacks registered
    before the run follow. *)
Theorem teardown_releases_each_object_once (env : environment) (w : world) :
  all_succeed env ->
  ~ certificate_present w ->
  ssl_key_file w ∉ unwritable w ->
  ssl_cert_file w ∉ unwritable w ->
  let n := next_handle w in
  exists w1,
    MemoryContextCallResetCallbacks (snd (CreateCertificatesWhenNeeded env w))
    = fold_left (fun w cb => call_free (fst cb) (snd cb) w) (callbacks w) w1
    /\ callbacks w1 = []
    /\ released w1
       = ([n; S n; S (S (S n)); S (S n); S (S (S (S n)))] ++ released w)%list
    /\ forall h,
         heap w1 !! h
         = if bool_decide (n <= h < n + 5)%nat then None else heap w !! h.
Proof.
  intros Hall Hno Hkey Hcert n.
  rewrite (CreateCertificatesWhenNeeded_created env w Hall Hno Hkey Hcert).
  cbn [snd].
  destruct (after_CreateCertificatesWhenNeeded_memory env w) as (_ & Hnil & Hrel & Hheap).
  fold n in Hheap.
  eexists. split; [apply teardown_after_CreateCertificatesWhenNeeded|].
  fold n.
  set (w0 := upd_callbacks (fun _ => []) (after_CreateCertificatesWhenNeeded env w)) in *.
  clearbody w0 n.
  split; [rewrite !callbacks_release; exact Hnil|].
  split; [rewrite !released_release, Hrel; reflexivity|].
  intros h. rewrite !heap_release, Hheap.
  clear Hall Hno Hkey Hcert Hnil Hrel Hheap.
  destruct (bool_decide_reflect (n <= h < n + 5)%nat) as [Hin|Hout].
  - assert (Hh : h = n \/ h = S n \/ h = S (S n) \/ h = S (S (S n))
                 \/ h = S (S (S (S n)))) by lia.
    destruct Hh as [->|[->|[->|[->| ->]]]].
    + apply lookup_delete_eq.
    + rewrite lookup_delete_ne by lia. apply lookup_delete_eq.
    + do 3 (rewrite lookup_delete_ne by lia). apply lookup_delete_eq.
    + do 2 (rewrite lookup_delete_ne by lia). apply lookup_delete_eq.
    + do 4 (rewrite lookup_delete_ne by lia). apply lookup_delete_eq.
  - do 5 (rewrite lookup_delete_ne by lia).
    do 5 (rewrite lookup_insert_ne by lia).
    reflexivity.
Qed.

Lemma teardown_releases_each_object_once_witness :
  exists w1,
    MemoryContextCallResetCallbacks
      (snd (CreateCertificatesWhenNeeded Sample.healthy Sample.fresh_node))
    = fold_left (fun w cb => call_free (fst cb) (snd cb) w)
        (callbacks Sample.fresh_node) w1
    /\ callbacks w1 = []
    /\ released w1 = [0; 1; 3; 2; 4]%nat
    /\ forall h,
         heap w1 !! h
         = if bool_decide (0 <= h < 5)%nat then None
           else heap Sample.fresh_node !! h.
Proof.
  apply (teardown_releases_each_object_once Sample.healthy Sample.fresh_node).
  - intros s. reflexivity.
  - intros [c Hc]. vm_compute in Hc. discriminate Hc.
  - vm_compute. intros H. discriminate H.
  - vm_compute. intros H. discriminate H.
Defined.

(** ** One file for the key and the certificate *)

(** When the key file and the certificate file are configured to be the same
    path, the run in which every call succeeds returns true, yet the file
    holds the certificate only: opening it for the certificate truncates the
    key just written. *)
Theorem CreateCertificatesWhenNeeded_single_file_loses_key
    (env : environment) (w : world) :
  all_succeed env ->
  ~ certificate_present w ->
  ssl_cert_file w = ssl_key_file w ->
  ssl_key_file w ∉ unwritable w ->
  exists w',
    CreateCertificatesWhenNeeded env w = (Done true, w')
    /\ files w' !! ssl_key_file w
       = Some [PemX509 (self_signed_certificate (generated_key env) (now w))].
Proof.
  intros Hall Hno Hsame Hkey.
  assert (Hcert : ssl_cert_file w ∉ unwritable w) by (rewrite Hsame; exact Hkey).
  rewrite (CreateCertificatesWhenNeeded_created env w Hall Hno Hkey Hcert).
  eexists. split; [reflexivity|].
  destruct w as [? certfile keyfile ? ? ? ? ? fs ro ss hp n cbs rel t].
  simpl in *. subst certfile.
  unfold after_CreateCertificatesWhenNeeded, after_StoreCertificate, after_generation,
    after_CreateCertificate, after_GeneratePrivateKey, after_probe. simpl.
  rewrite lookup_insert_eq. reflexivity.
Qed.

Lemma CreateCertificatesWhenNeeded_single_file_loses_key_witness :
  exists w',
    CreateCertificatesWhenNeeded Sample.healthy single_file_node = (Done true, w')
    /\ files w' !! "server.pem"
       = Some [PemX509 (self_signed_certificate (generated_key Sample.healthy)
                          1541030400)].
Proof.
  apply (CreateCertificatesWhenNeeded_single_file_loses_key
           Sample.healthy single_file_node).
  - intros s. reflexivity.
  - intros [c Hc]. vm_compute in Hc. discriminate Hc.
  - reflexivity.
  - vm_compute. intros H. discriminate H.
Defined.

(** ** Calls through the function manager *)

Lemma citus_setup_ssl_returns_NULL env b fcinfo w r w' :
  citus_setup_ssl env b fcinfo w = (Done r, w') -> r = returned_null fcinfo.
Proof.
  intros E.
  destruct (citus_setup_ssl_cases env b fcinfo w)
    as [[_ H]|[(_ & _ & H)|[Hssl Happ]]];
    [rewrite H in E; congruence | rewrite H in E; congruence |].
  rewrite (citus_setup_ssl_bootstraps env b fcinfo w Hssl Happ) in E.
  destruct (CreateCertificatesWhenNeeded env (after_ssl_on w)) as [[| |] w2];
    congruence.
Qed.


(** ** Rules for assertions *)

Lemma hoare_ret {A} (a : A) (P : world -> Prop) Q R :
  (forall w, P w -> Q a w) -> hoare P (ret a) Q R.
Proof. intros H w o w' HP E. injection E as <- <-. apply H. exact HP. Qed.

Lemma hoare_gets {A} (f : world -> A) (P : world -> Prop) Q R :
  (forall w, P w -> Q (f w) w) -> hoare P (gets f) Q R.
Proof. intros H w o w' HP E. injection E as <- <-. apply H. exact HP. Qed.

Lemma hoare_raise {A} msg (P : world -> Prop) (Q : A -> world -> Prop) R (k : M A) :
  (forall w, P w -> R w) -> hoare P (ereport ERROR msg ;; k) Q R.
Proof.
  intros H w o w' HP E. unfold bind, ereport in E. injection E as <- <-.
  apply H. exact HP.
Qed.

Lemma hoare_bind {A B} (m : M A) (k : A -> M B) (P : world -> Prop) Q1 Q R :
  hoare P m Q1 R ->
  (forall a, hoare (Q1 a) (k a) Q R) ->
  hoare P (x <- m ;; k x) Q R.
Proof.
  intros Hm Hk w o w' HP E. unfold bind in E.
  destruct (m w) as [[a|msg|] w1] eqn:Em.
  - exact (Hk a _ _ _ (Hm _ _ _ HP Em) E).
  - injection E as <- <-. exact (Hm _ _ _ HP Em).
  - injection E as <- <-. exact (Hm _ _ _ HP Em).
Qed.

Lemma hoare_weaken {A} (P P' : world -> Prop) (m : M A)
    (Q Q' : A -> world -> Prop) (R R' : world -> Prop) :
  hoare P m Q R ->
  (forall w, P' w -> P w) ->
  (forall a w, Q a w -> Q' a w) ->
  (forall w, R w -> R' w) ->
  hoare P' m Q' R'.
Proof.
  intros H HP HQ HR w o w' HP' E. specialize (H w o w' (HP _ HP') E).
  destruct o; auto.
Qed.

Lemma hoare_run {A} (P : world -> Prop) (m : M A)
    (Q : A -> world -> Prop) (R : world -> Prop) :
  (forall w, P w ->
     match fst (m w) with
     | Done a => Q a (snd (m w))
     | Error _ => R (snd (m w))
     | Crashed => True
     end) ->
  hoare P m Q R.
Proof.
  intros H w o w' HP E. specialize (H w HP). rewrite E in H. exact H.
Qed.

(** ** Registration of what is allocated *)

Lemma allocations_registered_store n0 pending hp n cbs h old new :
  allocations_registered n0 pending hp n cbs ->
  hp !! h = Some old ->
  (is_RSA old -> is_RSA new) ->
  allocations_registered n0 pending (<[h := new]> hp) n cbs.
Proof.
  intros [Hfresh Hreg] Hold Hkind. split.
  - intros h' Hh'. destruct (decide (h = h')) as [->|Hne].
    + rewrite (Hfresh h' Hh') in Hold. discriminate Hold.
    + rewrite lookup_insert_ne by exact Hne. apply Hfresh. exact Hh'.
  - intros h' obj Hh' Hobj. destruct (decide (h = h')) as [->|Hne].
    + rewrite lookup_insert_eq in Hobj. injection Hobj as <-.
      destruct (Hreg h' old Hh' Hold) as [H|H]; [left; auto | right; exact H].
    + rewrite lookup_insert_ne in Hobj by exact Hne. eapply Hreg; eassumption.
Qed.

Lemma allocations_registered_alloc n0 hp n cbs obj :
  allocations_registered n0 None hp n cbs ->
  allocations_registered n0 (Some n) (<[n := obj]> hp) (S n) cbs.
Proof.
  intros [Hfresh Hreg]. split.
  - intros h Hh. rewrite lookup_insert_ne by lia. apply Hfresh. lia.
  - intros h o Hh Ho. destruct (decide (n = h)) as [->|Hne].
    + right. right. reflexivity.
    + rewrite lookup_insert_ne in Ho by exact Hne.
      destruct (Hreg h o Hh Ho) as [H|[H|H]]; [auto | auto | discriminate H].
Qed.

Lemma allocations_registered_alloc_RSA n0 hp n cbs obj :
  is_RSA obj ->
  allocations_registered n0 None hp n cbs ->
  allocations_registered n0 None (<[n := obj]> hp) (S n) cbs.
Proof.
  intros Hobj [Hfresh Hreg]. split.
  - intros h Hh. rewrite lookup_insert_ne by lia. apply Hfresh. lia.
  - intros h o Hh Ho. destruct (decide (n = h)) as [->|Hne].
    + rewrite lookup_insert_eq in Ho. injection Ho as <-. left. exact Hobj.
    + rewrite lookup_insert_ne in Ho by exact Hne. eapply Hreg; eassumption.
Qed.

Lemma allocations_registered_register n0 pending hp n cbs free :
  allocations_registered n0 pending hp n cbs ->
  allocations_registered n0 None hp n ((free, pending) :: cbs).
Proof.
  intros [Hfresh Hreg]. split; [exact Hfresh|].
  intros h o Hh Ho. destruct (Hreg h o Hh Ho) as [H|[[f H]|H]].
  - left. exact H.
  - right. left. exists f. right. exact H.
  - right. left. exists free. left. rewrite H. reflexivity.
Qed.

Lemma allocations_registered_next n0 pending hp n cbs :
  allocations_registered n0 pending hp n cbs ->
  allocations_registered n0 pending hp (S n) cbs.
Proof.
  intros [Hfresh Hreg]. split; [|exact Hreg].
  intros h Hh. apply Hfresh. lia.
Qed.

Lemma allocations_registered_start hp n cbs :
  (forall h, (n <= h)%nat -> hp !! h = None) ->
  allocations_registered n None hp n cbs.
Proof.
  intros Hfresh. split; [exact Hfresh|].
  intros h o Hh Ho. rewrite (Hfresh h Hh) in Ho. discriminate Ho.
Qed.

Ltac registered_leaf :=
  unfold objects_registered in *; simpl in *;
  repeat first
    [ assumption
    | exact I
    | apply allocations_registered_register
    | apply allocations_registered_next
    | eapply allocations_registered_store;
        [ | eassumption | simpl; tauto ] ].

Ltac registered_cases :=
  apply hoare_run; intros [] HP;
  unfold_libraries;
  case_run; registered_leaf.

Section Registered.

Variable n0 : handle.
Variable env : environment.

Local Abbreviation Inv := (objects_registered n0 None).

Lemma new_object_registered s obj :
  hoare Inv (new_object env s obj) (objects_registered n0) Inv.
Proof.
  apply hoare_run; intros [] HP. unfold new_object.
  destruct (fails env s); run; unfold objects_registered in *; simpl in *.
  - exact HP.
  - apply allocations_registered_alloc. exact HP.
Qed.

Lemma RSA_new_registered :
  hoare Inv (RSA_new env) (fun _ => Inv) Inv.
Proof.
  apply hoare_run; intros [] HP. unfold RSA_new, new_object.
  destruct (fails env at_RSA_new); run; unfold objects_registered in *; simpl in *.
  - exact HP.
  - apply allocations_registered_alloc_RSA; [exact I | exact HP].
Qed.

Lemma EnsureReleaseOpenSSLResource_registered free arg :
  hoare (objects_registered n0 arg) (EnsureReleaseOpenSSLResource free arg)
    (fun _ => Inv) Inv.
Proof. registered_cases. Qed.

Lemma SSL_CTX_use_certificate_chain_file_registered ctx path :
  hoare Inv (SSL_CTX_use_certificate_chain_file ctx path) (fun _ => Inv) Inv.
Proof. registered_cases. Qed.

Lemma elog_LOG_registered msg :
  hoare Inv (elog LOG msg) (fun _ => Inv) Inv.
Proof. registered_cases. Qed.

Lemma BN_set_word_registered a v :
  hoare Inv (BN_set_word env a v) (fun _ => Inv) Inv.
Proof. registered_cases. Qed.

Lemma RSA_generate_key_ex_registered rsa bits e cb :
  hoare Inv (RSA_generate_key_ex env rsa bits e cb) (fun _ => Inv) Inv.
Proof. registered_cases. Qed.

Lemma EVP_PKEY_assign_RSA_registered pkey rsa :
  hoare Inv (EVP_PKEY_assign_RSA env pkey rsa) (fun _ => Inv) Inv.
Proof. registered_cases. Qed.

Lemma ASN1_INTEGER_set_registered a v :
  hoare Inv (ASN1_INTEGER_set env a v) (fun _ => Inv) Inv.
Proof. registered_cases. Qed.

Lemma X509_gmtime_adj_registered s adj :
  hoare Inv (X509_gmtime_adj env s adj) (fun _ => Inv) Inv.
Proof. registered_cases. Qed.

Lemma X509_set_pubkey_registered x pkey :
  hoare Inv (X509_set_pubkey env x pkey) (fun _ => Inv) Inv.
Proof. registered_cases. Qed.

Lemma X509_NAME_add_entry_by_txt_registered name field type bytes len loc set :
  hoare Inv (X509_NAME_add_entry_by_txt env name field type bytes len loc set)
    (fun _ => Inv) Inv.
Proof. registered_cases. Qed.

Lemma X509_set_issuer_name_registered x name :
  hoare Inv (X509_set_issuer_name env x name) (fun _ => Inv) Inv.
Proof. registered_cases. Qed.

Lemma X509_sign_registered x pkey md :
  hoare Inv (X509_sign env x pkey md) (fun _ => Inv) Inv.
Proof. registered_cases. Qed.

Lemma StoreCertificate_registered privateKey certificate :
  hoare Inv (StoreCertificate env privateKey certificate) (fun _ => Inv) Inv.
Proof. unfold StoreCertificate. registered_cases. Qed.

Ltac registered_call :=
  first
    [ apply RSA_new_registered
    | apply new_object_registered
    | apply EnsureReleaseOpenSSLResource_registered
    | apply SSL_CTX_use_certificate_chain_file_registered
    | apply elog_LOG_registered
    | apply BN_set_word_registered
    | apply RSA_generate_key_ex_registered
    | apply EVP_PKEY_assign_RSA_registered
    | apply ASN1_INTEGER_set_registered
    | apply X509_gmtime_adj_registered
    | apply X509_set_pubkey_registered
    | apply X509_NAME_add_entry_by_txt_registered
    | apply X509_set_issuer_name_registered
    | apply X509_sign_registered
    | apply StoreCertificate_registered
    | apply hoare_gets with (Q := fun _ => objects_registered n0 None); trivial ].

Ltac registered_step :=
  first
    [ apply hoare_raise; trivial
    | apply hoare_ret; trivial
    | eapply hoare_bind; [ registered_call | intros ? ]
    | match goal with
      | |- hoare _ (if is_null ?p then _ else _) _ _ => destruct p; cbn [is_null]
      | |- hoare _ (if ?b then _ else _) _ _ => destruct b
      | |- hoare _ (match ?p with _ => _ end) _ _ => destruct p
      end ].

Lemma GeneratePrivateKey_registered :
  hoare Inv (GeneratePrivateKey env) (fun _ => Inv) Inv.
Proof.
  unfold GeneratePrivateKey, EVP_PKEY_new, BN_new.
  repeat registered_step.
Qed.

Lemma CreateCertificate_registered privateKey :
  hoare Inv (CreateCertificate env privateKey) (fun _ => Inv) Inv.
Proof.
  unfold CreateCertificate, X509_new.
  repeat registered_step.
Qed.

Lemma CreateCertificatesWhenNeeded_registered :
  hoare Inv (CreateCertificatesWhenNeeded env) (fun _ => Inv) Inv.
Proof.
  unfold CreateCertificatesWhenNeeded, OPENSSL_init_ssl, SSL_CTX_new.
  apply hoare_bind with (Q1 := fun _ => objects_registered n0 None);
    [apply hoare_ret; trivial | intros _].
  repeat registered_step.
  eapply hoare_bind; [apply GeneratePrivateKey_registered | intros ?].
  repeat registered_step.
  eapply hoare_bind; [apply CreateCertificate_registered | intros ?].
  repeat registered_step.
Qed.

End Registered.



(** ** Streams are closed *)

Lemma hoare_of_memory_frame {A} (P : world -> Prop) (m : M A) D E :
  triple memory_frame m D E ->
  (forall w w', streams w' = streams w -> P w -> P w') ->
  hoare P m (fun _ => P) P.
Proof.
  intros Hm HP w o w' Hw Erun.
  destruct (Hm _ _ _ Erun) as [(_ & _ & _ & _ & Hs) _].
  destruct o; try exact I; eapply HP; eassumption.
Qed.

Lemma streams_within_streams ss w w' :
  streams w' = streams w -> streams_within ss w -> streams_within ss w'.
Proof. unfold streams_within. intros ->. trivial. Qed.

Lemma StoreCertificate_closes env privateKey certificate ss :
  hoare (streams_within ss) (StoreCertificate env privateKey certificate)
    (fun _ => streams_within ss) (streams_within ss).
Proof.
  unfold StoreCertificate. apply hoare_run; intros [] HP.
  unfold streams_within in *; simpl in HP.
  unfold_libraries; case_run; try exact I; try exact HP.
  all: intros h s Hs; apply HP;
    repeat first [ rewrite lookup_delete_Some in Hs
                 | rewrite lookup_insert_Some in Hs ];
    intuition congruence.
Qed.

Ltac closes_call ss env :=
  first
    [ apply (StoreCertificate_closes env _ _ ss)
    | eapply hoare_of_memory_frame;
        [ first [ apply GeneratePrivateKey_triple
                | apply CreateCertificate_triple
                | apply new_object_triple
                | apply EnsureReleaseOpenSSLResource_triple
                | apply SSL_CTX_use_certificate_chain_file_triple
                | apply elog_LOG_triple ]
        | apply streams_within_streams ]
    | apply hoare_gets with (Q := fun _ => streams_within ss); trivial ].

Ltac closes_step ss env :=
  first
    [ apply hoare_raise; trivial
    | apply hoare_ret; trivial
    | eapply hoare_bind; [ closes_call ss env | intros ? ]
    | match goal with
      | |- hoare _ (if is_null ?p then _ else _) _ _ => destruct p; cbn [is_null]
      | |- hoare _ (if ?b then _ else _) _ _ => destruct b
      end ].

Lemma CreateCertificatesWhenNeeded_closes env ss :
  hoare (streams_within ss) (CreateCertificatesWhenNeeded env)
    (fun _ => streams_within ss) (streams_within ss).
Proof.
  unfold CreateCertificatesWhenNeeded, OPENSSL_init_ssl, SSL_CTX_new.
  apply hoare_bind with (Q1 := fun _ => streams_within ss);
    [apply hoare_ret; trivial | intros _].
  repeat closes_step ss env.
Qed.

(** Whenever [CreateCertificatesWhenNeeded] returns or raises an error,
    whatever the libraries did, it has closed the streams it opened: a
    stream that is open afterwards was open before, with what it had
    buffered.  ([StoreCertificate] closes each file before it tests whether
    writing to it succeeded.) *)
Theorem CreateCertificatesWhenNeeded_leaves_no_stream_open
    (env : environment) (w : world) (o : outcome bool) (w' : world) :
  CreateCertificatesWhenNeeded env w = (o, w') ->
  o <> Crashed ->
  streams_within (streams w) w'.
Proof.
  intros E Ho.
  pose proof (CreateCertificatesWhenNeeded_closes env (streams w) w o w') as H.
  assert (H0 : streams_within (streams w) w) by (intros h s Hs; exact Hs).
  specialize (H H0 E). destruct o; [exact H | exact H | contradiction].
Qed.

Lemma CreateCertificatesWhenNeeded_leaves_no_stream_open_witness :
  streams_within (streams Sample.read_only_certificate_path)
    (snd (CreateCertificatesWhenNeeded Sample.healthy
            Sample.read_only_certificate_path)).
Proof.
  apply (CreateCertificatesWhenNeeded_leaves_no_stream_open Sample.healthy
           Sample.read_only_certificate_path
           (Error "unable to open certificate file 'server.crt' for writing")).
  - vm_compute. reflexivity.
  - discriminate.
Defined.

(** ** The key and the certificate, whatever fails *)

Lemma hoare_ex {A X} (P : X -> world -> Prop) (m : M A) Q R :
  (forall x, hoare (P x) m Q R) -> hoare (fun w => exists x, P x w) m Q R.
Proof. intros H w o w' [x HP] E. exact (H x w o w' HP E). Qed.

Lemma hoare_pure {A} (C : Prop) (P : world -> Prop) (m : M A) Q R :
  (C -> hoare P m Q R) -> hoare (fun w => C /\ P w) m Q R.
Proof. intros H w o w' [HC HP] E. exact (H HC w o w' HP E). Qed.

Lemma hoare_false {A} (m : M A) Q R : hoare (fun _ => False) m Q R.
Proof. intros w o w' []. Qed.

Ltac case_run_with tac :=
  repeat (run_with tac; rewrite ?orb_false_r; try case_step).

Lemma GeneratePrivateKey_key env t :
  hoare (fun w => now w = t) (GeneratePrivateKey env)
    (fun privateKey w' =>
       match privateKey with
       | Some p => exists r, key_at p r (generated_key env) w' /\ now w' = t
       | None => False
       end)
    (fun _ => True).
Proof.
  apply hoare_run; intros [? ? ? ? ? ? ? ? ? ? ? hp n ? ? ?] Ht.
  unfold GeneratePrivateKey. unfold_libraries.
  case_run; try exact I.
  all: exists (S (S n)); unfold key_at; simpl; repeat split; try lia;
    try exact Ht; repeat heap_step; reflexivity.
Qed.

Section Fields.

Variables (env : environment) (p r : handle) (k : RSA_key) (t : Z) (x : handle).

Local Abbreviation Is := (certificate_is p r k t x).

Ltac fields_cases :=
  apply hoare_run;
  intros [? ? ? ? ? ? ? ? ? ? ? hp n ? ? ?] (Hp & Hr & Hx & Hpx & Hrx & Ht);
  simpl in *; unfold_libraries;
  case_run_with ltac:(first [ rewrite Hp | rewrite Hr | rewrite Hx
                            | rewrite lookup_insert_ne by congruence ]);
  try exact I;
  unfold certificate_is; simpl;
  rewrite ?lookup_insert_eq, ?lookup_insert_ne by congruence;
  repeat split; try assumption; try congruence.

Lemma EnsureReleaseOpenSSLResource_fields free arg c :
  hoare (Is c) (EnsureReleaseOpenSSLResource free arg) (fun _ => Is c) (fun _ => True).
Proof. fields_cases. Qed.

Lemma ASN1_INTEGER_set_fields v c :
  hoare (Is c) (ASN1_INTEGER_set env (X509_get_serialNumber x) v)
    (fun _ => Is (if fails env at_ASN1_INTEGER_set then c
                  else set_cert_info (set_serialNumber v) c))
    (fun _ => True).
Proof. fields_cases. Qed.

Lemma X509_gmtime_adj_notBefore_fields c :
  hoare (Is c) (X509_gmtime_adj env (X509_get_notBefore x) 0)
    (fun _ => Is (if fails env at_X509_gmtime_adj_notBefore then c
                  else set_cert_info (set_notBefore t) c))
    (fun _ => True).
Proof. fields_cases. subst t. rewrite Z.add_0_r. reflexivity. Qed.

Lemma X509_gmtime_adj_notAfter_fields c :
  hoare (Is c) (X509_gmtime_adj env (X509_get_notAfter x) 0)
    (fun _ => Is (if fails env at_X509_gmtime_adj_notAfter then c
                  else set_cert_info (set_notAfter t) c))
    (fun _ => True).
Proof. fields_cases. subst t. rewrite Z.add_0_r. reflexivity. Qed.

Lemma X509_set_pubkey_fields c :
  hoare (Is c) (X509_set_pubkey env x (Some p))
    (fun _ => Is (if fails env at_X509_set_pubkey then c
                  else set_cert_info (set_key (RSA_public k)) c))
    (fun _ => True).
Proof. fields_cases. Qed.

Lemma X509_NAME_add_entry_by_txt_fields field type bytes len loc set c :
  hoare (Is c)
    (X509_NAME_add_entry_by_txt env (X509_get_subject_name x) field type bytes
       len loc set)
    (fun _ => Is (if fails env at_X509_NAME_add_entry_by_txt then c
                  else set_cert_info
                         (set_subject (subject (cert_info c)
                                       ++ [(c_str field, c_str bytes)])%list) c))
    (fun _ => True).
Proof. fields_cases. Qed.

Lemma X509_set_issuer_name_fields c :
  hoare (Is c) (X509_set_issuer_name env x (X509_get_subject_name x))
    (fun _ => Is (if fails env at_X509_set_issuer_name then c
                  else set_cert_info (set_issuer (subject (cert_info c))) c))
    (fun _ => True).
Proof. fields_cases. Qed.

Lemma X509_sign_fields c :
  hoare (Is c)
    (signed <- X509_sign env x (Some p) EVP_sha256 ;;
     if signed =? 0
     then (ereport ERROR "unable to create signature for the x509 certificate" ;;
           ret NULL)
     else ret (Some x))
    (fun certificate w' =>
       certificate = Some x
       /\ Is {| cert_info := cert_info c;
                signature := Some {| sig_md := EVP_sha256;
                                     sig_signer := rsa_secret k;
                                     sig_over := cert_info c |} |} w')
    (fun _ => True).
Proof. fields_cases. Qed.

Lemma StoreCertificate_stores c :
  hoare (Is c) (StoreCertificate env (Some p) (Some x))
    (fun _ w' => credentials_stored env k c w')
    (fun _ => True).
Proof.
  apply hoare_run.
  intros [? ? ? ? ? ? ? ? ? ? ? hp n ? ? ?] (Hp & Hr & Hx & Hpx & Hrx & Ht).
  simpl in *. unfold StoreCertificate. unfold_libraries.
  case_run_with ltac:(first [ rewrite Hp | rewrite Hr | rewrite Hx ]);
    try exact I.
  all: unfold credentials_stored; simpl; split; [intros Hf | intros Hf Hne];
    try congruence;
    repeat first [ rewrite lookup_insert_eq
                 | rewrite lookup_insert_ne by congruence ];
    reflexivity.
Qed.

End Fields.

Lemma X509_new_fields env p r k t n :
  hoare (fun w => key_at p r k w /\ now w = t /\ next_handle w = n) (X509_new env)
    (fun certificate w' =>
       match certificate with
       | Some x => x = n /\ certificate_is p r k t x X509_blank w'
       | None => True
       end)
    (fun _ => True).
Proof.
  apply hoare_run.
  intros [? ? ? ? ? ? ? ? ? ? ? hp n' ? ? ?] ((Hp & Hr & Hpn & Hrn) & Ht & Hn).
  simpl in *. unfold X509_new, new_object.
  destruct (fails env at_X509_new); run; [exact I|].
  split; [exact Hn|]. unfold certificate_is. simpl.
  rewrite lookup_insert_eq, !lookup_insert_ne by lia.
  repeat split; try assumption; lia.
Qed.

Lemma CreateCertificate_fields_set env p r k t n :
  hoare (fun w => key_at p r k w /\ now w = t /\ next_handle w = n)
    (CreateCertificate env (Some p))
    (fun certificate w' =>
       certificate = Some n /\ certificate_is p r k t n (certificate_set env k t) w')
    (fun _ => True).
Proof.
  unfold CreateCertificate.
  eapply hoare_bind; [apply X509_new_fields | intros certificate].
  destruct certificate as [x|]; [|apply hoare_raise; trivial].
  cbv beta iota. apply hoare_pure. intros ->.
  eapply hoare_bind; [apply EnsureReleaseOpenSSLResource_fields | intros ?; cbv beta].
  eapply hoare_bind; [apply ASN1_INTEGER_set_fields | intros ?; cbv beta].
  eapply hoare_bind; [apply X509_gmtime_adj_notBefore_fields | intros ?; cbv beta].
  eapply hoare_bind; [apply X509_gmtime_adj_notAfter_fields | intros ?; cbv beta].
  eapply hoare_bind; [apply X509_set_pubkey_fields | intros ?; cbv beta].
  eapply hoare_bind; [apply X509_NAME_add_entry_by_txt_fields | intros ?; cbv beta].
  eapply hoare_bind; [apply X509_set_issuer_name_fields | intros ?; cbv beta].
  eapply hoare_weaken;
    [apply X509_sign_fields | intros ? H; exact H | | auto].
  intros certificate w' [-> Hx]. split; [reflexivity|].
  revert Hx. unfold certificate_set, fields_set.
  destruct (fails env at_ASN1_INTEGER_set);
    destruct (fails env at_X509_gmtime_adj_notBefore);
    destruct (fails env at_X509_gmtime_adj_notAfter);
    destruct (fails env at_X509_set_pubkey);
    destruct (fails env at_X509_NAME_add_entry_by_txt);
    destruct (fails env at_X509_set_issuer_name);
    intros Hx; exact Hx.
Qed.

Lemma CreateCertificate_certificate env p r k t :
  hoare (fun w => key_at p r k w /\ now w = t) (CreateCertificate env (Some p))
    (fun certificate w' =>
       match certificate with
       | Some x => certificate_is p r k t x (certificate_set env k t) w'
       | None => False
       end)
    (fun _ => True).
Proof.
  intros w o w' [Hk Ht] E.
  pose proof (CreateCertificate_fields_set env p r k t (next_handle w) w o w'
                (conj Hk (conj Ht eq_refl)) E) as H.
  destruct o as [certificate| |]; try exact I.
  destruct H as [-> H]. exact H.
Qed.

(** For every behaviour of the libraries, the certificate [CreateCertificate]
    returns for a generated key is determined call by call: a field is set
    as intended when its call succeeded and is left blank when its call
    failed, the issuer is the subject as it was set, and the signature is
    over exactly these fields.  When no call fails these are the fields of
    the self-signed certificate. *)
Theorem CreateCertificate_fields
    (env : environment) (p r : handle) (k : RSA_key)
    (w : world) (certificate : ptr) (w' : world) :
  key_at p r k w ->
  CreateCertificate env (Some p) w = (Done certificate, w') ->
  certificate = Some (next_handle w)
  /\ heap w' !! next_handle w = Some (X509_obj (certificate_set env k (now w)))
  /\ (all_succeed env ->
      certificate_set env k (now w) = self_signed_certificate k (now w)).
Proof.
  intros Hkey E. split; [|split].
  - exact (proj1 (CreateCertificate_fields_set env p r k (now w) (next_handle w)
                    w _ w' (conj Hkey (conj eq_refl eq_refl)) E)).
  - destruct (CreateCertificate_fields_set env p r k (now w) (next_handle w)
                w _ w' (conj Hkey (conj eq_refl eq_refl)) E)
      as (_ & _ & _ & Hx & _).
    exact Hx.
  - intros Hall. unfold certificate_set, fields_set. rewrite !Hall. reflexivity.
Qed.

Lemma CreateCertificate_fields_witness :
  let env := failing [at_X509_NAME_add_entry_by_txt; at_X509_gmtime_adj_notAfter] 7 in
  let k := generated_key Sample.healthy in
  let w' := snd (CreateCertificate env (Some 0%nat) Sample.with_key) in
  Some 3%nat = Some (next_handle Sample.with_key)
  /\ heap w' !! next_handle Sample.with_key
     = Some (X509_obj (certificate_set env k (now Sample.with_key)))
  /\ (all_succeed env ->
      certificate_set env k (now Sample.with_key)
      = self_signed_certificate k (now Sample.with_key)).
Proof.
  apply (CreateCertificate_fields
           (failing [at_X509_NAME_add_entry_by_txt; at_X509_gmtime_adj_notAfter] 7)
           0%nat 2%nat (generated_key Sample.healthy) Sample.with_key (Some 3%nat)).
  - unfold key_at. vm_compute. repeat split; lia.
  - vm_compute. reflexivity.
Defined.

(** ** What is stored *)

Lemma generate_and_store_stores env t :
  hoare (fun w => now w = t) (generate_and_store env)
    (fun _ w' =>
       credentials_stored env (generated_key env)
         (certificate_set env (generated_key env) t) w')
    (fun _ => True).
Proof.
  eapply hoare_bind; [apply GeneratePrivateKey_key | intros privateKey].
  destruct privateKey as [p|]; cbn [is_null]; [|apply hoare_false].
  apply hoare_ex. intros r.
  eapply hoare_bind; [apply CreateCertificate_certificate | intros certificate].
  destruct certificate as [x|]; cbn [is_null]; [|apply hoare_false].
  eapply hoare_bind; [apply StoreCertificate_stores | intros written].
  destruct written; cbn [negb]; [apply hoare_ret; auto | apply hoare_raise; trivial].
Qed.

Lemma certificate_set_verifies env k t :
  X509_verify (certificate_set env k t) (RSA_public k) = true.
Proof.
  unfold X509_verify, certificate_set. simpl.
  apply bool_decide_eq_true. split; reflexivity.
Qed.

Lemma CreateCertificatesWhenNeeded_stored env w w' :
  CreateCertificatesWhenNeeded env w = (Done true, w') ->
  credentials_stored env (generated_key env)
    (certificate_set env (generated_key env) (now w)) w'
  /\ ssl_cert_file w' = ssl_cert_file w
  /\ ssl_key_file w' = ssl_key_file w.
Proof.
  intros E.
  destruct (CreateCertificatesWhenNeeded_triple env _ _ _ E)
    as [((_ & Hc & Hk & _) & _) _].
  assert (Hctx : fails env at_SSL_CTX_new = false).
  { destruct (fails env at_SSL_CTX_new) eqn:Hctx; [|reflexivity].
    rewrite (CreateCertificatesWhenNeeded_no_context env w Hctx) in E. discriminate E. }
  assert (Hno : loadable_certificate (files w) (ssl_cert_file w) = None).
  { destruct (loadable_certificate (files w) (ssl_cert_file w)) as [c|] eqn:Hl;
      [|reflexivity].
    rewrite (CreateCertificatesWhenNeeded_present env w c Hl) in E. discriminate E. }
  rewrite (CreateCertificatesWhenNeeded_absent env w Hctx Hno) in E.
  assert (Hnow : now (after_probe w) = now w) by (destruct w; reflexivity).
  split; [|split; assumption].
  exact (generate_and_store_stores env (now w) _ _ _ Hnow E).
Qed.



(** ** A second call *)



(** ** An existing certificate is kept *)

(** When the certificate file holds a certificate that loads,
    [citus_setup_ssl] returns NULL and leaves every file as it is, whatever
    the build, the settings and the libraries: credentials that are already
    there are never replaced. *)
Theorem citus_setup_ssl_keeps_existing_certificate
    (env : environment) (b : build) (fcinfo : FunctionCallInfoData) (w : world) :
  certificate_present w ->
  exists w',
    citus_setup_ssl env b fcinfo w = (Done (returned_null fcinfo), w')
    /\ files w' = files w
    /\ streams w' = streams w.
Proof.
  intros [c Hc].
  destruct (citus_setup_ssl_cases env b fcinfo w)
    as [[_ H]|[(_ & _ & H)|[Hssl Happ]]].
  - rewrite H. eexists. split; [reflexivity|]. destruct w. split; reflexivity.
  - rewrite H. eexists. split; [reflexivity|]. split; reflexivity.
  - rewrite (citus_setup_ssl_bootstraps env b fcinfo w Hssl Happ).
    assert (Hc' : loadable_certificate (files (after_ssl_on w))
                    (ssl_cert_file (after_ssl_on w)) = Some c).
    { destruct w. exact Hc. }
    rewrite (CreateCertificatesWhenNeeded_present env _ c Hc').
    eexists. split; [reflexivity|].
    destruct w. unfold after_ssl_on, after_load, after_reload, after_restart_warning.
    destruct (fails env at_SSL_CTX_new); destruct (100000 <=? PG_VERSION_NUM b);
      split; reflexivity.
Qed.

Lemma citus_setup_ssl_keeps_existing_certificate_witness :
  exists w',
    citus_setup_ssl Sample.healthy Sample.pg11 Sample.fcinfo0 Sample.provisioned_node
    = (Done (returned_null Sample.fcinfo0), w')
    /\ files w' = files Sample.provisioned_node
    /\ streams w' = streams Sample.provisioned_node.
Proof.
  apply (citus_setup_ssl_keeps_existing_certificate
           Sample.healthy Sample.pg11 Sample.fcinfo0 Sample.provisioned_node).
  eexists. vm_compute. reflexivity.
Defined.

(** ** What teardown leaves *)

Lemma call_free_heap f arg w h obj :
  heap (call_free f arg w) !! h = Some obj -> heap w !! h = Some obj.
Proof.
  unfold call_free. destruct arg as [a|]; [|trivial].
  destruct f; try (rewrite heap_release, lookup_delete_Some; tauto).
  destruct (heap w !! a) as [[| [r'|] | | |]|];
    rewrite ?heap_release, ?lookup_delete_Some; tauto.
Qed.

Lemma call_free_deletes f a w : heap (call_free f (Some a) w) !! a = None.
Proof.
  unfold call_free.
  destruct f; try (rewrite heap_release; apply lookup_delete_eq).
  destruct (heap w !! a) as [[| [r'|] | | |]|];
    rewrite heap_release; apply lookup_delete_eq.
Qed.

Lemma callbacks_heap cbs w h obj :
  heap (fold_left (fun w cb => call_free (fst cb) (snd cb) w) cbs w) !! h = Some obj ->
  heap w !! h = Some obj.
Proof.
  revert w. induction cbs as [|cb cbs IH]; intros w H; [exact H|].
  simpl in H. apply IH in H. eapply call_free_heap. exact H.
Qed.

Lemma callbacks_delete cbs w h :
  registered_in cbs h ->
  heap (fold_left (fun w cb => call_free (fst cb) (snd cb) w) cbs w) !! h = None.
Proof.
  revert w. induction cbs as [|cb cbs IH]; intros w [f Hin]; [destruct Hin|].
  cbn [fold_left]. destruct Hin as [->|Hin].
  - cbn [fst snd].
    destruct (heap (fold_left (fun w cb => call_free (fst cb) (snd cb) w) cbs
                      (call_free f (Some h) w)) !! h) as [obj|] eqn:E; [|reflexivity].
    apply callbacks_heap in E. rewrite call_free_deletes in E. discriminate E.
  - apply IH. exists f. exact Hin.
Qed.



(** ** The bootstrap, whatever fails *)

(** Whenever [citus_setup_ssl] returns on a node it acts on (SSL build, ssl
    off, sslmode "require") that had no loadable certificate and got its
    probe context, whatever else the libraries did: [ssl = on] is persisted
    and the credentials are those of this run.  If closing the certificate
    file succeeded, it holds the certificate of this run, which verifies
    against the generated key; if closing the key file succeeded and the
    paths differ, the key file holds that key. *)
Theorem citus_setup_ssl_provisions
    (env : environment) (b : build) (fcinfo : FunctionCallInfoData)
    (w : world) (r : Datum * FunctionCallInfoData) (w' : world) :
  USE_SSL b = true ->
  bootstrap_applies w ->
  ~ certificate_present w ->
  fails env at_SSL_CTX_new = false ->
  citus_setup_ssl env b fcinfo w = (Done r, w') ->
  let k := generated_key env in
  let c := certificate_set env k (now w) in
  auto_conf w' !! "ssl" = Some "on"
  /\ X509_verify c (RSA_public k) = true
  /\ (fails env at_fclose_certificateFile = false ->
      files w' !! ssl_cert_file w = Some [PemX509 c])
  /\ (fails env at_fclose_privateKeyFile = false ->
      ssl_key_file w <> ssl_cert_file w ->
      files w' !! ssl_key_file w = Some [PemPrivateKey k]).
Proof.
  intros Hssl Happ Hno Hctx E k c.
  rewrite (citus_setup_ssl_bootstraps env b fcinfo w Hssl Happ) in E.
  destruct (CreateCertificatesWhenNeeded env (after_ssl_on w)) as [o2 w2] eqn:E2.
  destruct o2 as [created| |]; try discriminate E.
  assert (Hno' : loadable_certificate (files (after_ssl_on w))
                   (ssl_cert_file (after_ssl_on w)) = None).
  { apply not_certificate_present in Hno. destruct w. exact Hno. }
  assert (created = true) as ->.
  { pose proof (generate_and_store_true env (after_probe (after_ssl_on w))) as Ht.
    rewrite <- (CreateCertificatesWhenNeeded_absent env _ Hctx Hno'), E2 in Ht.
    destruct created; [reflexivity | contradiction Ht; reflexivity]. }
  destruct (CreateCertificatesWhenNeeded_triple env _ _ _ E2) as [Hf _].
  apply after_ssl_on_frame in Hf. destruct Hf as (_ & _ & _ & Hconf & _).
  destruct (CreateCertificatesWhenNeeded_stored env _ _ E2) as ([Hcert Hkey] & Hc & Hk).
  assert (Hw : now (after_ssl_on w) = now w
               /\ ssl_cert_file (after_ssl_on w) = ssl_cert_file w
               /\ ssl_key_file (after_ssl_on w) = ssl_key_file w).
  { destruct w. repeat split. }
  destruct Hw as (Hnow & Hc0 & Hk0). rewrite Hnow in *. rewrite Hc, Hk, Hc0, Hk0 in *.
  assert (Hw' : files w' = files w2 /\ auto_conf w' = auto_conf w2).
  { injection E as _ <-. destruct w2.
    destruct (100000 <=? PG_VERSION_NUM b); split; reflexivity. }
  destruct Hw' as [-> ->]. rewrite Hconf.
  split; [apply lookup_insert_eq|].
  split; [apply certificate_set_verifies|]. split; assumption.
Qed.

Lemma citus_setup_ssl_provisions_witness :
  let env := failing [at_X509_set_issuer_name; at_fclose_privateKeyFile] 7 in
  let w := Sample.fresh_node in
  let w' := snd (citus_setup_ssl env Sample.pg11 Sample.fcinfo0 w) in
  let k := generated_key env in
  let c := certificate_set env k (now w) in
  auto_conf w' !! "ssl" = Some "on"
  /\ X509_verify c (RSA_public k) = true
  /\ (fails env at_fclose_certificateFile = false ->
      files w' !! ssl_cert_file w = Some [PemX509 c])
  /\ (fails env at_fclose_privateKeyFile = false ->
      ssl_key_file w <> ssl_cert_file w ->
      files w' !! ssl_key_file w = Some [PemPrivateKey k]).
Proof.
  apply (citus_setup_ssl_provisions
           (failing [at_X509_set_issuer_name; at_fclose_privateKeyFile] 7)
           Sample.pg11 Sample.fcinfo0 Sample.fresh_node
           (returned_null Sample.fcinfo0)).
  - reflexivity.
  - split; reflexivity.
  - intros [c Hc]. vm_compute in Hc. discriminate Hc.
  - reflexivity.
  - vm_compute. reflexivity.
Defined.
